(** * Neuroimaging-Preprocessing: the control and decision layer

    A shallow embedding of [code/qc_summary.py] (MRIQC metric loading,
    summary flags, exclusion recommendations) and of
    [code/example_analysis.py] (input location, confound selection, ROI
    extraction, artifact writing), with the properties of the specification
    stated over it.

    Python floats are IEEE binary64 numbers; they are modelled by the
    Standard Library's [spec_float], so that [nan], the infinities and the
    rounding of decimal literals are the ones the interpreter has. *)

From Stdlib Require Import ZArith String Ascii List Floats DecimalString.
From Stdlib Require Import Permutation Lia.
From stdpp Require Import gmap strings.
Import ListNotations.

Local Open Scope string_scope.
Local Open Scope list_scope.
Local Open Scope Z_scope.

(** ** The Python values the two scripts handle *)

Module Py.

(** Exceptions that the modelled code raises or lets through. *)
Inductive exn :=
  | AttributeError
  | FileNotFoundError (msg : string)
  | OSError (path : string)
  | Exception (msg : string).

(** The result of evaluating an expression that may raise. *)
Inductive outcome (A : Type) :=
  | Ok (a : A)
  | Raise (e : exn).
Arguments Ok {A} a.
Arguments Raise {A} e.

#[global] Instance outcome_ret : MRet outcome := fun A a => Ok a.
#[global] Instance outcome_bind : MBind outcome := fun A B k m =>
  match m with
  | Ok a => k a
  | Raise e => Raise e
  end.

(** A binary64 number. *)
Definition float64 : Type := spec_float.

(** [np.nan]. *)
Definition nan : float64 := S754_nan.

(** The literal [0] that [fillna(0)] stores in a float column. *)
Definition zero : float64 := S754_zero false.

(** [x > y], [x < y] and [x <= y] on floats: false as soon as one side is
    [nan]. *)
Definition gt (x y : float64) : bool := SFltb y x.
Definition lt (x y : float64) : bool := SFltb x y.
Definition le (x y : float64) : bool := SFleb x y.

(** [math.isnan] / pandas' [isna] on a float cell. *)
Definition isnan (x : float64) : bool :=
  match x with
  | S754_nan => true
  | _ => false
  end.

(** Rounding of the non-negative rational [n / d] to the nearest integer,
    ties to the even one, as the [f] presentation type rounds the exact
    value of a float. *)
Definition round_half_even (n d : Z) : Z :=
  let q := n / d in
  let r := n mod d in
  match 2 * r ?= d with
  | Lt => q
  | Eq => if Z.even q then q else q + 1
  | Gt => q + 1
  end.

(** [m * 2^e * 10^digits], rounded to an integer. *)
Definition scaled (digits : nat) (m : positive) (e : Z) : Z :=
  let n := Z.pos m * 10 ^ Z.of_nat digits in
  if 0 <=? e then n * 2 ^ e else round_half_even n (2 ^ (- e)).

Fixpoint zeros (k : nat) : string :=
  match k with
  | O => EmptyString
  | S k' => String "0" (zeros k')
  end.

(** The decimal digits of [n] with a point before the last [digits] ones. *)
Definition fixed_point (digits : nat) (n : Z) : string :=
  let s := NilEmpty.string_of_uint (N.to_uint (Z.to_N n)) in
  let s := zeros (S digits - String.length s) +:+ s in
  let k := (String.length s - digits)%nat in
  match digits with
  | O => s
  | _ => substring 0 k s +:+ "." +:+ substring k digits s
  end.

(** [f'{x:.<digits>f}']. *)
Definition format_f (digits : nat) (x : float64) : string :=
  match x with
  | S754_nan => "nan"
  | S754_infinity s => if s then "-inf" else "inf"
  | S754_zero s => (if s then "-" else "") +:+ fixed_point digits 0
  | S754_finite s m e =>
      (if s then "-" else "") +:+ fixed_point digits (scaled digits m e)
  end.

(** What [json.load] returns. A JSON number is read as the float of that
    value ([35] and [35.0] compare and print alike under the formats used
    here). *)
#[warnings="-register-all"]
Inductive json :=
  | JNull
  | JBool (b : bool)
  | JNum (x : float64)
  | JStr (s : string)
  | JArr (l : list json)
  | JObj (d : gmap string json).

(** [v.get(k, dflt)]: only a dict has the method. *)
Definition get (v : json) (k : string) (dflt : json) : outcome json :=
  match v with
  | JObj d => Ok (default dflt (d !! k))
  | _ => Raise AttributeError
  end.

End Py.

Import Py.

(** ** qc_summary.py *)

(** The float literals of the thresholds, as the interpreter reads them:
    the binary64 number nearest to the decimal ([0.9] is
    [0x1.ccccccccccccdp-1]). *)
#[warnings="-inexact-float"]
Definition f0_9 : float64 := Eval vm_compute in Prim2SF 0.9%float.
Definition f0_5 : float64 := Eval vm_compute in Prim2SF 0.5%float.
Definition f40 : float64 := Eval vm_compute in Prim2SF 40%float.
Definition f50 : float64 := Eval vm_compute in Prim2SF 50%float.
Definition f8 : float64 := Eval vm_compute in Prim2SF 8%float.
Definition f10 : float64 := Eval vm_compute in Prim2SF 10%float.

(** One row of the functional (BOLD) table: the [metrics] dict of
    [load_bold_metrics]. [V] is the type of a metric cell: [json] as
    loaded, [float64] in a numeric column of the data frame. *)
Module Bold.
Record metrics (V : Type) := Metrics {
  subject_id : json;
  session_id : json;
  task : json;
  fd_mean : V;
  fd_num : V;
  fd_perc : V;
  snr : V;
  tsnr : V;
  gcor : V;
  dvars_std : V;
  dvars_nstd : V;
  aor : V;
  aqi : V
}.
Arguments Metrics {V}.
Arguments subject_id {V}.
Arguments session_id {V}.
Arguments task {V}.
Arguments fd_mean {V}.
Arguments fd_num {V}.
Arguments fd_perc {V}.
Arguments snr {V}.
Arguments tsnr {V}.
Arguments gcor {V}.
Arguments dvars_std {V}.
Arguments dvars_nstd {V}.
Arguments aor {V}.
Arguments aqi {V}.
End Bold.

(** One row of the anatomical (T1w) table. *)
Module T1w.
Record metrics (V : Type) := Metrics {
  subject_id : json;
  session_id : json;
  snr : V;
  cnr : V;
  fber : V;
  efc : V;
  qi_1 : V;
  qi_2 : V;
  cjv : V;
  wm2max : V
}.
Arguments Metrics {V}.
Arguments subject_id {V}.
Arguments session_id {V}.
Arguments snr {V}.
Arguments cnr {V}.
Arguments fber {V}.
Arguments efc {V}.
Arguments qi_1 {V}.
Arguments qi_2 {V}.
Arguments cjv {V}.
Arguments wm2max {V}.
End T1w.

(** An element of the [exclusions] list. *)
Module Entry.
Record t := Make {
  subject_id : json;
  session_id : json;
  reason : string;
  severity : string
}.
End Entry.

Module QC.

(** The body of the loop of [load_bold_metrics] for one parsed file. *)
Definition bold_record (data : json) : outcome (Bold.metrics json) :=
  m1 ← get data "bids_meta" (JObj ∅);
  subject_id ← get m1 "subject_id" (JStr "unknown");
  m2 ← get data "bids_meta" (JObj ∅);
  session_id ← get m2 "session_id" (JStr "unknown");
  m3 ← get data "bids_meta" (JObj ∅);
  task ← get m3 "task_id" (JStr "unknown");
  fd_mean ← get data "fd_mean" (JNum nan);
  fd_num ← get data "fd_num" (JNum nan);
  fd_perc ← get data "fd_perc" (JNum nan);
  snr ← get data "snr" (JNum nan);
  tsnr ← get data "tsnr" (JNum nan);
  gcor ← get data "gcor" (JNum nan);
  dvars_std ← get data "dvars_std" (JNum nan);
  dvars_nstd ← get data "dvars_nstd" (JNum nan);
  aor ← get data "aor" (JNum nan);
  aqi ← get data "aqi" (JNum nan);
  mret (Bold.Metrics subject_id session_id task fd_mean fd_num fd_perc snr
          tsnr gcor dvars_std dvars_nstd aor aqi).

(** The body of the loop of [load_t1w_metrics] for one parsed file. *)
Definition t1w_record (data : json) : outcome (T1w.metrics json) :=
  m1 ← get data "bids_meta" (JObj ∅);
  subject_id ← get m1 "subject_id" (JStr "unknown");
  m2 ← get data "bids_meta" (JObj ∅);
  session_id ← get m2 "session_id" (JStr "unknown");
  snr ← get data "snr_total" (JNum nan);
  cnr ← get data "cnr" (JNum nan);
  fber ← get data "fber" (JNum nan);
  efc ← get data "efc" (JNum nan);
  qi_1 ← get data "qi_1" (JNum nan);
  qi_2 ← get data "qi_2" (JNum nan);
  cjv ← get data "cjv" (JNum nan);
  wm2max ← get data "wm2max" (JNum nan);
  mret (T1w.Metrics subject_id session_id snr cnr fber efc qi_1 qi_2 cjv
          wm2max).

(** [for json_file in files: ... metrics_list.append(metrics)]: the first
    exception ends the loop and the call. *)
Fixpoint load_loop {R : Type} (record : json → outcome R)
    (files : list json) (metrics_list : list R) : outcome (list R) :=
  match files with
  | [] => Ok metrics_list
  | data :: rest =>
      metrics ← record data;
      load_loop record rest (metrics_list ++ [metrics])%list
  end.

(** [load_bold_metrics], given the parsed contents of the files that the
    glob [sub-*/**/func/*_bold.json] found, in the order it found them.
    [None] is Python's [None]. *)
Definition load_bold_metrics (bold_files : list json)
    : outcome (option (list (Bold.metrics json))) :=
  match bold_files with
  | [] => Ok None
  | _ => metrics_list ← load_loop bold_record bold_files []; mret (Some metrics_list)
  end.

(** [load_t1w_metrics], given the parsed contents of the files that the
    glob [sub-*/**/anat/*_T1w.json] found. *)
Definition load_t1w_metrics (t1w_files : list json)
    : outcome (option (list (T1w.metrics json))) :=
  match t1w_files with
  | [] => Ok None
  | _ => metrics_list ← load_loop t1w_record t1w_files []; mret (Some metrics_list)
  end.

(** The rows that [generate_bold_summary] prints under QUALITY FLAGS, and
    the table it saves to [bold_qc_summary.csv]. *)
Record bold_flags := BoldFlags {
  bold_high_motion : list (Bold.metrics float64);
  bold_low_tsnr : list (Bold.metrics float64);
  bold_saved : list (Bold.metrics float64)
}.

Definition generate_bold_summary (df : list (Bold.metrics float64)) : bold_flags :=
  let high_motion := List.filter (fun row => gt (Bold.fd_mean row) f0_5) df in
  let low_tsnr := List.filter (fun row => lt (Bold.tsnr row) f50) df in
  BoldFlags high_motion low_tsnr df.

(** The same for [generate_t1w_summary] and [t1w_qc_summary.csv]. *)
Record t1w_flags := T1wFlags {
  t1w_low_snr : list (T1w.metrics float64);
  t1w_high_efc : list (T1w.metrics float64);
  t1w_saved : list (T1w.metrics float64)
}.

Definition generate_t1w_summary (df : list (T1w.metrics float64)) : t1w_flags :=
  let low_snr := List.filter (fun row => lt (T1w.snr row) f10) df in
  let high_efc := List.filter (fun row => gt (T1w.efc row) f0_5) df in
  T1wFlags low_snr high_efc df.

(** The four row selections of [create_exclusion_list], under the names
    the method gives them. *)
Definition high_motion (bold_df : list (Bold.metrics float64)) :=
  List.filter (fun row => gt (Bold.fd_mean row) f0_9) bold_df.

Definition mod_motion (bold_df : list (Bold.metrics float64)) :=
  List.filter
    (fun row => gt (Bold.fd_mean row) f0_5 && le (Bold.fd_mean row) f0_9)
    bold_df.

Definition low_tsnr (bold_df : list (Bold.metrics float64)) :=
  List.filter (fun row => lt (Bold.tsnr row) f40) bold_df.

Definition low_snr (t1w_df : list (T1w.metrics float64)) :=
  List.filter (fun row => lt (T1w.snr row) f8) t1w_df.

(** The dict appended for a row of each selection. *)
Definition high_motion_entry (row : Bold.metrics float64) : Entry.t :=
  Entry.Make (Bold.subject_id row) (Bold.session_id row)
    ("High motion (FD=" +:+ format_f 3 (Bold.fd_mean row) +:+ "mm)") "high".

Definition mod_motion_entry (row : Bold.metrics float64) : Entry.t :=
  Entry.Make (Bold.subject_id row) (Bold.session_id row)
    ("Moderate motion (FD=" +:+ format_f 3 (Bold.fd_mean row) +:+ "mm)")
    "moderate".

Definition low_tsnr_entry (row : Bold.metrics float64) : Entry.t :=
  Entry.Make (Bold.subject_id row) (Bold.session_id row)
    ("Low tSNR (" +:+ format_f 2 (Bold.tsnr row) +:+ ")") "moderate".

Definition low_snr_entry (row : T1w.metrics float64) : Entry.t :=
  Entry.Make (T1w.subject_id row) (T1w.session_id row)
    ("Very low SNR (" +:+ format_f 2 (T1w.snr row) +:+ ")") "high".

(** [for _, row in rows.iterrows(): exclusions.append(entry(row))]. *)
Definition append_each {R : Type} (entry : R → Entry.t) (rows : list R)
    (exclusions : list Entry.t) : list Entry.t :=
  fold_left (fun exclusions row => (exclusions ++ [entry row])%list) rows
    exclusions.

(** [create_exclusion_list]: the list it returns. *)
Definition create_exclusion_list
    (bold_df : option (list (Bold.metrics float64)))
    (t1w_df : option (list (T1w.metrics float64))) : list Entry.t :=
  let exclusions := [] in
  let exclusions :=
    match bold_df with
    | Some bold_df =>
        let exclusions :=
          append_each high_motion_entry (high_motion bold_df) exclusions in
        let exclusions :=
          append_each mod_motion_entry (mod_motion bold_df) exclusions in
        append_each low_tsnr_entry (low_tsnr bold_df) exclusions
    | None => exclusions
    end in
  match t1w_df with
  | Some t1w_df => append_each low_snr_entry (low_snr t1w_df) exclusions
  | None => exclusions
  end.

(** What [create_exclusion_list] writes to [suggested_exclusions.csv]:
    the whole list when it is not empty, no file otherwise. *)
Definition suggested_exclusions_csv (exclusions : list Entry.t)
    : option (list Entry.t) :=
  match exclusions with
  | [] => None
  | _ => Some exclusions
  end.

End QC.

(** ** example_analysis.py *)

(** The literals [0.1] and [0.01] of the band-pass filter. *)
#[warnings="-inexact-float"]
Definition f0_1 : float64 := Eval vm_compute in Prim2SF 0.1%float.
#[warnings="-inexact-float"]
Definition f0_01 : float64 := Eval vm_compute in Prim2SF 0.01%float.

(** A 2-D array of floats, by rows. *)
Abbreviation ndarray := (list (list float64)).

(** A table read by [pd.read_csv]: the header and the rows under it. A cell
    that a row lacks reads as [nan], as a missing field does. *)
Module Frame.
Record t := Make {
  columns : list string;
  rows : ndarray
}.
End Frame.

(** The calls into nibabel, nilearn and pandas' reader. Their numerical
    work is outside this development: each is a function that returns or
    raises. *)
Class Nilearn := {
  image : Type;
  atlas_data : Type;
  maps : atlas_data → image;
  labels : atlas_data → list string;
  nib_load : string → outcome image;
  get_zooms_3 : image → outcome float64;
  read_csv : string → outcome Frame.t;
  compute_epi_mask : image → outcome image;
  clean_img : image → option ndarray → bool → bool → float64 → float64 →
              float64 → image → outcome image;
  import_datasets : outcome unit;
  fetch_atlas_aal : outcome atlas_data;
  fetch_atlas_harvard_oxford : string → outcome atlas_data;
  masker_fit_transform : image → image → outcome ndarray;
  connectivity_fit_transform : string → ndarray → outcome ndarray
}.

(** What a written file holds. *)
Inductive content :=
  | Npy (a : ndarray)
  | Text (s : string)
  | Csv (a : ndarray) (columns index : list string).

(** The part of the file system that [save_results] touches: the files
    and directories present, the paths on which an operation raises
    [OSError], and the log of the paths on which an operation was
    attempted. *)
Record disk := Disk {
  files : gmap string content;
  dirs : gset string;
  faulty : gset string;
  attempted : list string
}.

(** A computation that reads and changes the disk and may raise; the
    disk survives the exception. *)
Definition io (A : Type) : Type := disk → outcome A * disk.

#[global] Instance io_ret : MRet io := fun A a d => (Ok a, d).
#[global] Instance io_bind : MBind io := fun A B k m d =>
  match m d with
  | (Ok a, d') => k a d'
  | (Raise e, d') => (Raise e, d')
  end.

(** A call that does not touch the disk. *)
Definition lift {A : Type} (r : outcome A) : io A := fun d => (r, d).

Module Analysis.

(** [fnmatch] for one path component, with [*] the only special character
    (the three patterns of [__init__] have no other). *)
Fixpoint fnmatch (pat : string) : string → bool :=
  match pat with
  | EmptyString => fun name =>
      match name with
      | EmptyString => true
      | String _ _ => false
      end
  | String "*" pat' =>
      fix star (name : string) : bool :=
        fnmatch pat' name ||
        match name with
        | EmptyString => false
        | String _ rest => star rest
        end
  | String c pat' => fun name =>
      match name with
      | EmptyString => false
      | String d rest => Ascii.eqb c d && fnmatch pat' rest
      end
  end.

(** [list(directory.glob(pat))]: the entries of [directory] that match, in
    the order in which the operating system enumerates the directory
    ([listing]); no sorting takes place. *)
Definition glob (directory : string) (listing : list string) (pat : string)
    : list string :=
  map (fun name => directory +:+ "/" +:+ name)
      (List.filter (fnmatch pat) listing).

(** The attributes that [__init__] sets. *)
Record t := Make {
  fmriprep_dir : string;
  subject_id : string;
  session_id : string;
  subject_dir : string;
  bold_file : string;
  confounds_file : string;
  mask_file : option string
}.

(** [PostPreprocessingAnalysis.__init__]; [listing] is the content of
    [subject_dir]. *)
Definition init (listing : list string) (fmriprep_dir subject_id : string)
    (session_id : string) : outcome t :=
  let subject_dir :=
    fmriprep_dir +:+ "/" +:+ subject_id +:+ "/" +:+ session_id +:+ "/" +:+ "func" in
  let bold_files :=
    glob subject_dir listing "*_space-MNI*_desc-preproc_bold.nii.gz" in
  match bold_files with
  | [] =>
      Raise (FileNotFoundError
               ("No preprocessed BOLD files found in " +:+ subject_dir))
  | bold_file :: _ =>
      let confounds_files :=
        glob subject_dir listing "*_desc-confounds_timeseries.tsv" in
      match confounds_files with
      | [] =>
          Raise (FileNotFoundError
                   ("No confounds file found in " +:+ subject_dir))
      | confounds_file :: _ =>
          let mask_files :=
            glob subject_dir listing "*_space-MNI*_desc-brain_mask.nii.gz" in
          let mask_file :=
            match mask_files with
            | [] => None
            | mask_file :: _ => Some mask_file
            end in
          Ok (Make fmriprep_dir subject_id session_id subject_dir bold_file
                confounds_file mask_file)
      end
  end.

(** The default of [confound_names]. *)
Definition default_confounds : list string :=
  [ "trans_x"; "trans_y"; "trans_z";
    "rot_x"; "rot_y"; "rot_z";
    "framewise_displacement";
    "csf"; "white_matter";
    "global_signal" ].

(** [[c for c in confound_names if c in confounds_df.columns]]. *)
Definition available_confounds (confounds_df : Frame.t)
    (confound_names : list string) : list string :=
  filter (λ c, c ∈ Frame.columns confounds_df) confound_names.

(** The position of the column labelled [c]. *)
Fixpoint index (c : string) (columns : list string) : nat :=
  match columns with
  | [] => O
  | c' :: rest => if String.eqb c c' then O else S (index c rest)
  end.

(** [confounds_df[names]]: the named columns, in the order of [names]. *)
Definition getitem (df : Frame.t) (names : list string) : Frame.t :=
  Frame.Make names
    (map (fun row => map (fun c => nth (index c (Frame.columns df)) row nan)
                       names)
         (Frame.rows df)).

(** [df.fillna(0)]. *)
Definition fillna0 (df : Frame.t) : Frame.t :=
  Frame.Make (Frame.columns df)
    (map (map (fun x => if isnan x then zero else x)) (Frame.rows df)).

(** [load_confounds], from the table that [read_csv] returned. [None] is
    Python's [None]. *)
Definition load_confounds (confounds_df : Frame.t)
    (confound_names : option (list string)) : option ndarray :=
  let confound_names := default default_confounds confound_names in
  let available_confounds := available_confounds confounds_df confound_names in
  match available_confounds with
  | [] => None
  | _ =>
      let confounds := getitem confounds_df available_confounds in
      let confounds := fillna0 confounds in
      Some (Frame.rows confounds)
  end.

Section WithNilearn.
Context `{Nilearn}.

(** [load_data]. *)
Definition load_data (self : t) : outcome image :=
  bold_img ← nib_load (bold_file self);
  _ ← get_zooms_3 bold_img;
  mret bold_img.

(** [apply_confound_regression]. *)
Definition apply_confound_regression (self : t) (bold_img : image)
    (confounds : option ndarray) : outcome image :=
  mask_img ← match mask_file self with
             | Some mask_file => nib_load mask_file
             | None => compute_epi_mask bold_img
             end;
  t_r ← get_zooms_3 bold_img;
  clean_img bold_img confounds true true f0_1 f0_01 t_r mask_img.

(** [extract_roi_timeseries]. [None] stands for the pair [(None, None)]
    and [Some (timeseries, labels)] for the pair of the two values. *)
Definition extract_roi_timeseries (cleaned_img : image) (atlas : string)
    : option (ndarray * list string) :=
  let try : outcome (option (ndarray * list string)) :=
    _ ← import_datasets;
    selected ←
      (if String.eqb atlas "aal" then
         (atlas_data ← fetch_atlas_aal;
          mret (Some (maps atlas_data, labels atlas_data)))
       else if String.eqb atlas "harvard_oxford" then
         (atlas_data ← fetch_atlas_harvard_oxford "cort-maxprob-thr25-2mm";
          mret (Some (maps atlas_data, labels atlas_data)))
       else mret None);
    match selected with
    | None => mret None
    | Some (atlas_img, labels) =>
        timeseries ← masker_fit_transform atlas_img cleaned_img;
        mret (Some (timeseries, labels))
    end in
  match try with
  | Ok r => r
  | Raise _ => None
  end.

(** [compute_connectivity]. *)
Definition compute_connectivity (timeseries : ndarray) (kind : string)
    : outcome ndarray :=
  connectivity_fit_transform kind timeseries.

End WithNilearn.

(** [output_path.mkdir(exist_ok=True)]. *)
Definition mkdir (path : string) : io unit := fun d =>
  let d := Disk (files d) (dirs d) (faulty d) (attempted d ++ [path]) in
  if decide (path ∈ faulty d) then (Raise (OSError path), d)
  else (Ok tt, Disk (files d) ({[path]} ∪ dirs d) (faulty d) (attempted d)).

(** Writing a whole file: [np.save], [open(..., 'w')] with its writes, and
    [DataFrame.to_csv]. *)
Definition write (path : string) (c : content) : io unit := fun d =>
  let d := Disk (files d) (dirs d) (faulty d) (attempted d ++ [path]) in
  if decide (path ∈ faulty d) then (Raise (OSError path), d)
  else (Ok tt, Disk (<[path := c]> (files d)) (dirs d) (faulty d) (attempted d)).

(** [str(i)]. *)
Definition str_nat (i : nat) : string :=
  NilEmpty.string_of_uint (Nat.to_uint i).

(** The text of the labels file: a line [f"{i}\t{label}\n"] per label. *)
Fixpoint label_lines (i : nat) (labels : list string) : string :=
  match labels with
  | [] => ""
  | label :: rest =>
      str_nat i +:+ String (ascii_of_nat 9) label
        +:+ String (ascii_of_nat 10) (label_lines (S i) rest)
  end.

(** [save_results]. *)
Definition save_results (self : t) (timeseries connectivity_matrix : ndarray)
    (labels : list string) (output_dir : string) : io string :=
  let output_path := output_dir in
  _ ← mkdir output_path;
  let timeseries_file :=
    output_path +:+ "/" +:+ subject_id self +:+ "_timeseries.npy" in
  _ ← write timeseries_file (Npy timeseries);
  let connectivity_file :=
    output_path +:+ "/" +:+ subject_id self +:+ "_connectivity.npy" in
  _ ← write connectivity_file (Npy connectivity_matrix);
  let labels_file :=
    output_path +:+ "/" +:+ subject_id self +:+ "_labels.txt" in
  _ ← write labels_file (Text (label_lines 0 labels));
  let connectivity_csv :=
    output_path +:+ "/" +:+ subject_id self +:+ "_connectivity.csv" in
  _ ← write connectivity_csv (Csv connectivity_matrix labels labels);
  mret output_path.

Section Pipeline.
Context `{Nilearn}.

(** The end of [run_complete_analysis], from [if timeseries is not None]
    on. *)
Definition finish_analysis (self : t)
    (roi : option (ndarray * list string)) : io (option string) :=
  match roi with
  | Some (timeseries, labels) =>
      connectivity_matrix ← lift (compute_connectivity timeseries "correlation");
      output_path ←
        save_results self timeseries connectivity_matrix labels
          "analysis_outputs";
      mret (Some output_path)
  | None => mret None
  end.

(** [run_complete_analysis]. *)
Definition run_complete_analysis (self : t) : io (option string) :=
  bold_img ← lift (load_data self);
  confounds_df ← lift (read_csv (confounds_file self));
  let confounds := load_confounds confounds_df None in
  cleaned_img ← lift (apply_confound_regression self bold_img confounds);
  finish_analysis self (extract_roi_timeseries cleaned_img "aal").

End Pipeline.

End Analysis.

(** ** Inputs of the scenarios *)

Module Scenario.

(** The literals [0.95], [35], [0.3], [60] and [12]. *)
#[warnings="-inexact-float"]
Definition f0_95 : float64 := Eval vm_compute in Prim2SF 0.95%float.
Definition f35 : float64 := Eval vm_compute in Prim2SF 35%float.
#[warnings="-inexact-float"]
Definition f0_3 : float64 := Eval vm_compute in Prim2SF 0.3%float.
Definition f60 : float64 := Eval vm_compute in Prim2SF 60%float.
Definition f12 : float64 := Eval vm_compute in Prim2SF 12%float.

(** A functional row with the given motion and tSNR, the other metrics
    undefined. *)
Definition bold_row (fd_mean tsnr : float64) : Bold.metrics float64 :=
  Bold.Metrics (JStr "sub-01") (JStr "ses-01") (JStr "rest") fd_mean nan nan
    nan tsnr nan nan nan nan nan.

(** An anatomical row with the given SNR and EFC. *)
Definition t1w_row (snr efc : float64) : T1w.metrics float64 :=
  T1w.Metrics (JStr "sub-01") (JStr "ses-01") snr nan nan efc nan nan nan nan.

End Scenario.

(** ** Metric files

    A metric file is one JSON object per scan whose [bids_meta], when it
    is there, is an object too. [bids_meta d] is that object, the empty
    one when the key is absent; there is none when the key holds another
    kind of value. *)
Definition bids_meta (d : gmap string json) : option (gmap string json) :=
  match d !! "bids_meta" with
  | None => Some ∅
  | Some (JObj meta) => Some meta
  | Some _ => None
  end.

Definition metric_file (data : json) : Prop :=
  ∃ d meta, data = JObj d ∧ bids_meta d = Some meta.

(** Every metric of the row [r] whose key the object [d] lacks is nan. The
    loader reads the anatomical [snr] under the key [snr_total]. *)
Definition bold_absent_is_nan (d : gmap string json) (r : Bold.metrics json)
    : Prop :=
  (d !! "fd_mean" = None → Bold.fd_mean r = JNum nan) ∧
  (d !! "fd_num" = None → Bold.fd_num r = JNum nan) ∧
  (d !! "fd_perc" = None → Bold.fd_perc r = JNum nan) ∧
  (d !! "snr" = None → Bold.snr r = JNum nan) ∧
  (d !! "tsnr" = None → Bold.tsnr r = JNum nan) ∧
  (d !! "gcor" = None → Bold.gcor r = JNum nan) ∧
  (d !! "dvars_std" = None → Bold.dvars_std r = JNum nan) ∧
  (d !! "dvars_nstd" = None → Bold.dvars_nstd r = JNum nan) ∧
  (d !! "aor" = None → Bold.aor r = JNum nan) ∧
  (d !! "aqi" = None → Bold.aqi r = JNum nan).

Definition t1w_absent_is_nan (d : gmap string json) (r : T1w.metrics json)
    : Prop :=
  (d !! "snr_total" = None → T1w.snr r = JNum nan) ∧
  (d !! "cnr" = None → T1w.cnr r = JNum nan) ∧
  (d !! "fber" = None → T1w.fber r = JNum nan) ∧
  (d !! "efc" = None → T1w.efc r = JNum nan) ∧
  (d !! "qi_1" = None → T1w.qi_1 r = JNum nan) ∧
  (d !! "qi_2" = None → T1w.qi_2 r = JNum nan) ∧
  (d !! "cjv" = None → T1w.cjv r = JNum nan) ∧
  (d !! "wm2max" = None → T1w.wm2max r = JNum nan).

(** Files of the scenarios: a functional file with its tSNR only, an
    anatomical file that names its SNR [snr], one that names it
    [snr_total], and a file whose [bids_meta] has the subject only. *)
Definition bold_file_tsnr : gmap string json :=
  {[ "tsnr" := JNum Scenario.f35 ]}.
Definition t1w_file_snr : gmap string json :=
  {[ "snr" := JNum Scenario.f12 ]}.
Definition t1w_file_snr_total : gmap string json :=
  {[ "snr_total" := JNum Scenario.f12 ]}.
Definition meta_subject_only : gmap string json :=
  {[ "subject_id" := JStr "01" ]}.
Definition file_meta_subject_only : gmap string json :=
  {[ "bids_meta" := JObj meta_subject_only ]}.

(** ** Inputs and vocabulary for the analysis pipeline *)

(** Scenario A: a confound table with the columns trans_x, rot_z and csf,
    two time points, and an undefined cell in each of the first two
    columns. *)
Definition confounds_A : Frame.t :=
  Frame.Make ["trans_x"; "rot_z"; "csf"]
    [ [nan; Scenario.f0_3; Scenario.f12];
      [f0_5; nan; Scenario.f35] ].

(** [df.fillna(0)] on one cell. *)
Definition filled (x : float64) : float64 := if isnan x then zero else x.

(** The lexicographically-first element of a list of paths, as the
    specification words the tie-break (sort the candidates, take the
    first). *)
Definition lexicographically_first (candidates : list string)
    : option string :=
  match candidates with
  | [] => None
  | c :: rest =>
      Some (fold_left (fun m c' => if String.ltb c' m then c' else m) rest c)
  end.

(** [path] is the first entry of the enumeration [listing] of [directory]
    that matches [pat]. *)
Definition first_enumerated (pat directory : string) (listing : list string)
    (path : string) : Prop :=
  ∃ pre name post,
    listing = pre ++ name :: post ∧
    Forall (fun n => Analysis.fnmatch pat n = false) pre ∧
    Analysis.fnmatch pat name = true ∧
    path = directory +:+ "/" +:+ name.

(** A directory that the operating system enumerates with run 2 before
    run 1. *)
Definition listing_two_runs : list string :=
  [ "sub-01_ses-01_task-rest_run-2_space-MNI152NLin2009cAsym_desc-preproc_bold.nii.gz";
    "sub-01_ses-01_task-rest_run-1_space-MNI152NLin2009cAsym_desc-preproc_bold.nii.gz";
    "sub-01_ses-01_task-rest_run-1_desc-confounds_timeseries.tsv" ].

(** The four artifacts of [save_results], in the order in which it writes
    them. *)
Definition artifacts (self : Analysis.t)
    (timeseries connectivity_matrix : ndarray) (labels : list string)
    (output_dir : string) : list (string * content) :=
  [ (output_dir +:+ "/" +:+ Analysis.subject_id self +:+ "_timeseries.npy",
     Npy timeseries);
    (output_dir +:+ "/" +:+ Analysis.subject_id self +:+ "_connectivity.npy",
     Npy connectivity_matrix);
    (output_dir +:+ "/" +:+ Analysis.subject_id self +:+ "_labels.txt",
     Text (Analysis.label_lines 0 labels));
    (output_dir +:+ "/" +:+ Analysis.subject_id self +:+ "_connectivity.csv",
     Csv connectivity_matrix labels labels) ].

(** The subject of [main]. *)
Definition sub_01 : Analysis.t :=
  Analysis.Make "derivatives/fmriprep" "sub-01" "ses-01"
    "derivatives/fmriprep/sub-01/ses-01/func"
    "derivatives/fmriprep/sub-01/ses-01/func/sub-01_ses-01_task-rest_space-MNI152NLin2009cAsym_desc-preproc_bold.nii.gz"
    "derivatives/fmriprep/sub-01/ses-01/func/sub-01_ses-01_task-rest_desc-confounds_timeseries.tsv"
    None.

(** An empty disk on which only the time-series file cannot be written,
    and one on which only the labels file cannot. *)
Definition disk_timeseries_faulty : disk :=
  Disk ∅ ∅ {[ "analysis_outputs/sub-01_timeseries.npy" ]} [].

Definition disk_labels_faulty : disk :=
  Disk ∅ ∅ {[ "analysis_outputs/sub-01_labels.txt" ]} [].

(** A 2 x 2 time series, its correlation matrix and the region labels. *)
Definition timeseries_2 : ndarray := [ [f0_5; f0_9]; [f0_9; f0_5] ].
Definition connectivity_2 : ndarray :=
  [ [Scenario.f12; Scenario.f35]; [Scenario.f35; Scenario.f12] ].
Definition labels_2 : list string := [ "Precentral_L"; "Precentral_R" ].

(** An environment in which every library call succeeds. *)
Definition nilearn_ok : Nilearn := {|
  image := unit;
  atlas_data := unit;
  maps := fun _ => tt;
  labels := fun _ => labels_2;
  nib_load := fun _ => Ok tt;
  get_zooms_3 := fun _ => Ok Scenario.f12;
  read_csv := fun _ => Ok confounds_A;
  compute_epi_mask := fun _ => Ok tt;
  clean_img := fun _ _ _ _ _ _ _ _ => Ok tt;
  import_datasets := Ok tt;
  fetch_atlas_aal := Ok tt;
  fetch_atlas_harvard_oxford := fun _ => Ok tt;
  masker_fit_transform := fun _ _ => Ok timeseries_2;
  connectivity_fit_transform := fun _ _ => Ok connectivity_2
|}.

(** ** Vocabulary for the further properties of the loaders *)

(** [metric_file] as a test. *)
Definition is_metric_file (data : json) : bool :=
  match data with
  | JObj d =>
      match d !! "bids_meta" with
      | None | Some (JObj _) => true
      | Some _ => false
      end
  | _ => false
  end.

(** The top-level keys that [load_bold_metrics] and [load_t1w_metrics]
    read. *)
Definition bold_keys : list string :=
  [ "bids_meta"; "fd_mean"; "fd_num"; "fd_perc"; "snr"; "tsnr"; "gcor";
    "dvars_std"; "dvars_nstd"; "aor"; "aqi" ].

Definition t1w_keys : list string :=
  [ "bids_meta"; "snr_total"; "cnr"; "fber"; "efc"; "qi_1"; "qi_2"; "cjv";
    "wm2max" ].

(** Every identifier and metric that the file holds is in the row [r] as
    the file holds it. *)
Definition bold_present_is_copied (d meta : gmap string json)
    (r : Bold.metrics json) : Prop :=
  (∀ v, meta !! "subject_id" = Some v → Bold.subject_id r = v) ∧
  (∀ v, meta !! "session_id" = Some v → Bold.session_id r = v) ∧
  (∀ v, meta !! "task_id" = Some v → Bold.task r = v) ∧
  (∀ v, d !! "fd_mean" = Some v → Bold.fd_mean r = v) ∧
  (∀ v, d !! "fd_num" = Some v → Bold.fd_num r = v) ∧
  (∀ v, d !! "fd_perc" = Some v → Bold.fd_perc r = v) ∧
  (∀ v, d !! "snr" = Some v → Bold.snr r = v) ∧
  (∀ v, d !! "tsnr" = Some v → Bold.tsnr r = v) ∧
  (∀ v, d !! "gcor" = Some v → Bold.gcor r = v) ∧
  (∀ v, d !! "dvars_std" = Some v → Bold.dvars_std r = v) ∧
  (∀ v, d !! "dvars_nstd" = Some v → Bold.dvars_nstd r = v) ∧
  (∀ v, d !! "aor" = Some v → Bold.aor r = v) ∧
  (∀ v, d !! "aqi" = Some v → Bold.aqi r = v).

Definition t1w_present_is_copied (d meta : gmap string json)
    (r : T1w.metrics json) : Prop :=
  (∀ v, meta !! "subject_id" = Some v → T1w.subject_id r = v) ∧
  (∀ v, meta !! "session_id" = Some v → T1w.session_id r = v) ∧
  (∀ v, d !! "snr_total" = Some v → T1w.snr r = v) ∧
  (∀ v, d !! "cnr" = Some v → T1w.cnr r = v) ∧
  (∀ v, d !! "fber" = Some v → T1w.fber r = v) ∧
  (∀ v, d !! "efc" = Some v → T1w.efc r = v) ∧
  (∀ v, d !! "qi_1" = Some v → T1w.qi_1 r = v) ∧
  (∀ v, d !! "qi_2" = Some v → T1w.qi_2 r = v) ∧
  (∀ v, d !! "cjv" = Some v → T1w.cjv r = v) ∧
  (∀ v, d !! "wm2max" = Some v → T1w.wm2max r = v).

(** A metric file with the identifiers and two metrics, the same file with
    a key that no loader reads, and a file whose [bids_meta] is null. *)
Definition bold_file_full : gmap string json :=
  {[ "bids_meta" := JObj {[ "subject_id" := JStr "01"; "session_id" := JStr "01";
                            "task_id" := JStr "rest" ]};
     "fd_mean" := JNum Scenario.f0_95;
     "tsnr" := JNum Scenario.f35 ]}.

Definition bold_file_full_provenance : gmap string json :=
  <[ "provenance" := JStr "mriqc" ]> bold_file_full.

Definition file_meta_null : gmap string json :=
  {[ "bids_meta" := JNull; "tsnr" := JNum Scenario.f35 ]}.

(** ** The script's entry point, and inputs for the further properties
    of the analysis *)

Module Example.
Section Main.
Context `{Nilearn}.

(** [main] of example_analysis.py. [dir_exists] is
    [Path(fmriprep_dir).exists()] and [listing] the content of the func
    directory of sub-01, ses-01. The handler of [except Exception] prints
    and returns. *)
Definition main (dir_exists : bool) (listing : list string) : io unit :=
  fun d =>
    let fmriprep_dir := "derivatives/fmriprep" in
    let subject_id := "sub-01" in
    let session_id := "ses-01" in
    if negb dir_exists then (Ok tt, d)
    else
      let try : outcome (option string) * disk :=
        match Analysis.init listing fmriprep_dir subject_id session_id with
        | Ok analysis => Analysis.run_complete_analysis analysis d
        | Raise e => (Raise e, d)
        end in
      match try with
      | (Ok _, d') => (Ok tt, d')
      | (Raise _, d') => (Ok tt, d')
      end.

End Main.
End Example.

(** A pattern without [*]. *)
Fixpoint star_free (pat : string) : bool :=
  match pat with
  | EmptyString => true
  | String "*" _ => false
  | String _ pat' => star_free pat'
  end.

(** The paths of the four artifacts of a subject under [output_dir]. *)
Definition artifact_paths (self : Analysis.t) (output_dir : string)
    : list string :=
  [ output_dir +:+ "/" +:+ Analysis.subject_id self +:+ "_timeseries.npy";
    output_dir +:+ "/" +:+ Analysis.subject_id self +:+ "_connectivity.npy";
    output_dir +:+ "/" +:+ Analysis.subject_id self +:+ "_labels.txt";
    output_dir +:+ "/" +:+ Analysis.subject_id self +:+ "_connectivity.csv" ].



(** A directory with a functional scan and no confounds table. *)
Definition listing_no_confounds : list string :=
  [ "sub-01_ses-01_task-rest_space-MNI152NLin2009cAsym_desc-preproc_bold.nii.gz" ].

(** An empty disk without faults. *)
Definition disk_empty : disk := Disk ∅ ∅ ∅ [].

(** ** The QC pipeline *)

(** pandas' [DataFrame] constructor on the list of metric dicts of a
    loader: the table with its metric columns as float columns. How the
    library types a column is outside this development; the constructor
    is a function of the list. *)
Class Pandas := {
  bold_frame : list (Bold.metrics json) → list (Bold.metrics float64);
  t1w_frame : list (T1w.metrics json) → list (T1w.metrics float64)
}.

(** The files under qc_reports after a run: [bold_qc_summary.csv],
    [t1w_qc_summary.csv] and [suggested_exclusions.csv], each with the
    rows saved to it, or absent. *)
Module Report.
Record t := Make {
  bold_qc_summary : option (list (Bold.metrics float64));
  t1w_qc_summary : option (list (T1w.metrics float64));
  suggested_exclusions : option (list Entry.t)
}.
End Report.

Module QCRun.
Section Run.
Context `{Pandas}.

(** [MRIQCAnalyzer.run], given the parsed metric files that the two globs
    found. *)
Definition run (bold_files t1w_files : list json) : outcome Report.t :=
  bold_df ← QC.load_bold_metrics bold_files;
  t1w_df ← QC.load_t1w_metrics t1w_files;
  let bold_df := bold_frame <$> bold_df in
  let t1w_df := t1w_frame <$> t1w_df in
  match bold_df, t1w_df with
  | None, None => mret (Report.Make None None None)
  | _, _ =>
      let bold_csv :=
        (fun df => QC.bold_saved (QC.generate_bold_summary df)) <$> bold_df in
      let t1w_csv :=
        (fun df => QC.t1w_saved (QC.generate_t1w_summary df)) <$> t1w_df in
      let exclusions := QC.create_exclusion_list bold_df t1w_df in
      mret (Report.Make bold_csv t1w_csv
              (QC.suggested_exclusions_csv exclusions))
  end.

End Run.
End QCRun.

(** The dict of a row whose metric cells are the floats of [row]. *)
Definition bold_cells (row : Bold.metrics float64) : Bold.metrics json :=
  Bold.Metrics (Bold.subject_id row) (Bold.session_id row) (Bold.task row)
    (JNum (Bold.fd_mean row)) (JNum (Bold.fd_num row))
    (JNum (Bold.fd_perc row)) (JNum (Bold.snr row)) (JNum (Bold.tsnr row))
    (JNum (Bold.gcor row)) (JNum (Bold.dvars_std row))
    (JNum (Bold.dvars_nstd row)) (JNum (Bold.aor row)) (JNum (Bold.aqi row)).

Definition t1w_cells (row : T1w.metrics float64) : T1w.metrics json :=
  T1w.Metrics (T1w.subject_id row) (T1w.session_id row)
    (JNum (T1w.snr row)) (JNum (T1w.cnr row)) (JNum (T1w.fber row))
    (JNum (T1w.efc row)) (JNum (T1w.qi_1 row)) (JNum (T1w.qi_2 row))
    (JNum (T1w.cjv row)) (JNum (T1w.wm2max row)).

(** What is assumed of the constructor: dicts whose metric cells are all
    floats give the rows with these floats. *)
Definition frame_keeps_floats `{Pandas} : Prop :=
  (∀ rows, bold_frame (map bold_cells rows) = rows) ∧
  (∀ rows, t1w_frame (map t1w_cells rows) = rows).

(** The float of a numeric cell. *)
Definition number (v : json) : float64 :=
  match v with
  | JNum x => x
  | _ => nan
  end.

(** The row read off a metric file: the identifiers of [meta], or
    "unknown", and the float under each metric key, or nan. *)
Definition bold_row_of (d meta : gmap string json) : Bold.metrics float64 :=
  Bold.Metrics
    (default (JStr "unknown") (meta !! "subject_id"))
    (default (JStr "unknown") (meta !! "session_id"))
    (default (JStr "unknown") (meta !! "task_id"))
    (number (default (JNum nan) (d !! "fd_mean")))
    (number (default (JNum nan) (d !! "fd_num")))
    (number (default (JNum nan) (d !! "fd_perc")))
    (number (default (JNum nan) (d !! "snr")))
    (number (default (JNum nan) (d !! "tsnr")))
    (number (default (JNum nan) (d !! "gcor")))
    (number (default (JNum nan) (d !! "dvars_std")))
    (number (default (JNum nan) (d !! "dvars_nstd")))
    (number (default (JNum nan) (d !! "aor")))
    (number (default (JNum nan) (d !! "aqi"))).

Definition t1w_row_of (d meta : gmap string json) : T1w.metrics float64 :=
  T1w.Metrics
    (default (JStr "unknown") (meta !! "subject_id"))
    (default (JStr "unknown") (meta !! "session_id"))
    (number (default (JNum nan) (d !! "snr_total")))
    (number (default (JNum nan) (d !! "cnr")))
    (number (default (JNum nan) (d !! "fber")))
    (number (default (JNum nan) (d !! "efc")))
    (number (default (JNum nan) (d !! "qi_1")))
    (number (default (JNum nan) (d !! "qi_2")))
    (number (default (JNum nan) (d !! "cjv")))
    (number (default (JNum nan) (d !! "wm2max"))).

Definition bold_row_of_file (data : json) : Bold.metrics float64 :=
  match data with
  | JObj d => bold_row_of d (default ∅ (bids_meta d))
  | _ => bold_row_of ∅ ∅
  end.

Definition t1w_row_of_file (data : json) : T1w.metrics float64 :=
  match data with
  | JObj d => t1w_row_of d (default ∅ (bids_meta d))
  | _ => t1w_row_of ∅ ∅
  end.

(** The table of a list of files: none for no file. *)
Definition table_of {R : Type} (row_of_file : json → R) (files : list json)
    : option (list R) :=
  match files with
  | [] => None
  | _ => Some (map row_of_file files)
  end.

(** The metric keys of the two kinds of file. *)
Definition bold_metric_names : list string :=
  [ "fd_mean"; "fd_num"; "fd_perc"; "snr"; "tsnr"; "gcor"; "dvars_std";
    "dvars_nstd"; "aor"; "aqi" ].

Definition t1w_metric_names : list string :=
  [ "snr_total"; "cnr"; "fber"; "efc"; "qi_1"; "qi_2"; "cjv"; "wm2max" ].

(** A metric file each of whose metrics, when present, is a number. *)
Definition numeric_metric_file (keys : list string) (data : json) : Prop :=
  ∃ d meta, data = JObj d ∧ bids_meta d = Some meta ∧
            ∀ k v, k ∈ keys → d !! k = Some v → ∃ x, v = JNum x.

(** A constructor that keeps floats, and takes any other cell for nan. *)
Definition pandas_numeric : Pandas := {|
  bold_frame := map (fun r =>
    Bold.Metrics (Bold.subject_id r) (Bold.session_id r) (Bold.task r)
      (number (Bold.fd_mean r)) (number (Bold.fd_num r))
      (number (Bold.fd_perc r)) (number (Bold.snr r)) (number (Bold.tsnr r))
      (number (Bold.gcor r)) (number (Bold.dvars_std r))
      (number (Bold.dvars_nstd r)) (number (Bold.aor r))
      (number (Bold.aqi r)));
  t1w_frame := map (fun r =>
    T1w.Metrics (T1w.subject_id r) (T1w.session_id r)
      (number (T1w.snr r)) (number (T1w.cnr r)) (number (T1w.fber r))
      (number (T1w.efc r)) (number (T1w.qi_1 r)) (number (T1w.qi_2 r))
      (number (T1w.cjv r)) (number (T1w.wm2max r)))
|}.

(** A functional file of a subject who moved (fd_mean 0.95), an
    anatomical file with its SNR (12), and a file with identifiers and no
    metric. *)
Definition t1w_file_full : gmap string json :=
  {[ "bids_meta" := JObj {[ "subject_id" := JStr "01" ]};
     "snr_total" := JNum Scenario.f12 ]}.

(** ** Properties of the exclusion engine *)

(** The format and the pattern matcher on inputs of the kind the
    program meets. *)
Example format_f_values :
  format_f 3 Scenario.f0_95 = "0.950" ∧
  format_f 2 Scenario.f35 = "35.00" ∧
  format_f 3 f0_9 = "0.900" ∧
  format_f 2 nan = "nan" ∧
  format_f 2 (S754_finite true 4503599627370496 (-62)) = "-0.00" ∧
  format_f 0 (S754_finite false 5 (-1)) = "2" ∧
  format_f 0 (S754_finite false 7 (-1)) = "4".
Proof. repeat split; vm_compute; reflexivity. Qed.

Example fnmatch_values :
  Analysis.fnmatch "*_space-MNI*_desc-preproc_bold.nii.gz"
    "sub-01_ses-01_task-rest_space-MNI152NLin2009cAsym_desc-preproc_bold.nii.gz"
  = true ∧
  Analysis.fnmatch "*_space-MNI*_desc-preproc_bold.nii.gz"
    "sub-01_ses-01_task-rest_space-T1w_desc-preproc_bold.nii.gz" = false ∧
  Analysis.fnmatch "*_space-MNI*_desc-preproc_bold.nii.gz"
    "sub-01_ses-01_task-rest_space-MNI152NLin2009cAsym_desc-brain_mask.nii.gz"
  = false ∧
  Analysis.fnmatch "*_desc-confounds_timeseries.tsv"
    "sub-01_ses-01_task-rest_desc-confounds_timeseries.tsv" = true ∧
  Analysis.fnmatch "*_desc-confounds_timeseries.tsv"
    "sub-01_ses-01_task-rest_desc-confounds_timeseries.tsv.bak" = false.
Proof. repeat split; vm_compute; reflexivity. Qed.

Section FloatOrder.

Lemma SFcompare_antisym (x y : float64) :
  SFcompare y x = option_map CompOpp (SFcompare x y).
Proof.
  destruct x as [sx|sx| |sx mx ex], y as [sy|sy| |sy my ey]; simpl;
    try reflexivity; try (destruct sx; reflexivity);
    try (destruct sy; reflexivity);
    try (destruct sx, sy; reflexivity).
  assert (Hm : Pos.compare_cont Eq my mx = CompOpp (Pos.compare_cont Eq mx my))
    by (rewrite (Pos.compare_cont_antisym mx my Eq); reflexivity).
  destruct sx, sy; simpl; try reflexivity; f_equal;
    rewrite (Z.compare_antisym ex ey), Hm;
    destruct (ex ?= ey)%Z; simpl; try reflexivity;
    destruct (Pos.compare_cont Eq mx my); reflexivity.
Qed.

(** [x > c] excludes [x <= c]. *)
Lemma gt_not_le (x c : float64) : gt x c = true → le x c = false.
Proof.
  unfold gt, le, SFltb, SFleb. rewrite (SFcompare_antisym c x).
  destruct (SFcompare c x) as [[]|]; simpl; congruence.
Qed.

(** No comparison holds of [nan]. *)
Lemma gt_nan (c : float64) : gt nan c = false.
Proof. unfold gt, SFltb. destruct c; reflexivity. Qed.

Lemma lt_nan (c : float64) : lt nan c = false.
Proof. reflexivity. Qed.

Lemma le_nan (c : float64) : le nan c = false.
Proof. reflexivity. Qed.

End FloatOrder.

Section Selections.
Context {R E : Type}.

Lemma append_each_map (entry : R → Entry.t) (rows : list R)
    (exclusions : list Entry.t) :
  QC.append_each entry rows exclusions = (exclusions ++ map entry rows)%list.
Proof.
  unfold QC.append_each. revert exclusions.
  induction rows as [|row rows IH]; intros exclusions; simpl.
  - now rewrite app_nil_r.
  - rewrite IH, <- app_assoc. reflexivity.
Qed.

Lemma filter_one_more (p : R → bool) (r : R) (l : list R) :
  List.filter p (r :: l) = (List.filter p [r] ++ List.filter p l)%list.
Proof. simpl. destruct (p r); reflexivity. Qed.

Lemma filter_drop (p : R → bool) (pre post : list R) (r : R) :
  p r = false →
  List.filter p (pre ++ r :: post) = List.filter p (pre ++ post).
Proof.
  intros Hr. rewrite !List.filter_app. simpl. now rewrite Hr.
Qed.

Lemma interleave3 (a b c A B C : list E) :
  ((a ++ A) ++ (b ++ B) ++ (c ++ C))%list ≡ₚ
  ((a ++ b ++ c) ++ (A ++ B ++ C))%list.
Proof.
  rewrite <- !app_assoc. apply Permutation_app_head.
  rewrite (Permutation_app_swap_app A b). apply Permutation_app_head.
  rewrite (Permutation_app_swap_app B c).
  rewrite (Permutation_app_swap_app A c). reflexivity.
Qed.

Lemma selections_by_row (p q s : R → bool) (f g h : R → E) (l : list R) :
  (map f (List.filter p l) ++ map g (List.filter q l)
     ++ map h (List.filter s l))%list ≡ₚ
  flat_map (fun r => (map f (List.filter p [r]) ++ map g (List.filter q [r])
                        ++ map h (List.filter s [r]))%list) l.
Proof.
  induction l as [|r l IH]; [reflexivity|].
  rewrite (filter_one_more p), (filter_one_more q), (filter_one_more s).
  rewrite !map_app, interleave3.
  change (flat_map ?k (r :: l)) with (k r ++ flat_map k l)%list.
  apply Permutation_app_head, IH.
Qed.

Lemma selection_by_row (p : R → bool) (f : R → E) (l : list R) :
  map f (List.filter p l) = flat_map (fun r => map f (List.filter p [r])) l.
Proof.
  induction l as [|r l IH]; [reflexivity|].
  rewrite filter_one_more, map_app, IH. reflexivity.
Qed.

End Selections.

(** The list that [create_exclusion_list] returns, selection by
    selection. *)
Lemma create_exclusion_list_unfold bold_df t1w_df :
  QC.create_exclusion_list bold_df t1w_df =
  (match bold_df with
   | Some df =>
       map QC.high_motion_entry (QC.high_motion df)
         ++ map QC.mod_motion_entry (QC.mod_motion df)
         ++ map QC.low_tsnr_entry (QC.low_tsnr df)
   | None => []
   end ++
   match t1w_df with
   | Some df => map QC.low_snr_entry (QC.low_snr df)
   | None => []
   end)%list.
Proof.
  unfold QC.create_exclusion_list.
  destruct bold_df, t1w_df; rewrite ?append_each_map; simpl;
    rewrite ?app_nil_r, <- ?app_assoc; reflexivity.
Qed.

Lemma le_of_not_gt (x c c' : float64) :
  c ≠ nan → gt x c' = true → gt x c = false → le x c = true.
Proof.
  unfold gt, le, SFltb, SFleb. intros Hc Hx.
  rewrite (SFcompare_antisym x c).
  assert (Hn : x ≠ nan) by (intros ->; destruct c'; discriminate).
  clear Hx. unfold nan in *.
  destruct x as [s|s| |s m e], c as [t|t| |t n k]; simpl in *;
    try congruence; try (destruct s; simpl; congruence);
    try (destruct t; simpl; congruence);
    try (destruct s, t; simpl; congruence).
  destruct s, t, (e ?= k)%Z, (Pos.compare_cont Eq m n); simpl; congruence.
Qed.

(** C1. Each functional record yields one entry per rule it triggers: a
    "high" entry with the FD printed to three decimals when fd_mean > 0.9,
    a "moderate" entry when fd_mean is in (0.5, 0.9], a "moderate" entry
    when tsnr < 40; each anatomical record yields a "high" entry when
    snr < 8; the list for whole tables is made of the entries of their
    records. A record with fd_mean = 0.95 and tsnr = 35 yields exactly the
    high motion entry and the moderate tSNR entry, and one with
    fd_mean = 0.3 and tsnr = 60 yields none. *)
Theorem exclusion_entry_per_triggered_rule :
  (∀ r : Bold.metrics float64,
     QC.create_exclusion_list (Some [r]) None =
     ((if gt (Bold.fd_mean r) f0_9
       then [Entry.Make (Bold.subject_id r) (Bold.session_id r)
               ("High motion (FD=" +:+ format_f 3 (Bold.fd_mean r) +:+ "mm)")
               "high"]
       else []) ++
      (if gt (Bold.fd_mean r) f0_5 && le (Bold.fd_mean r) f0_9
       then [Entry.Make (Bold.subject_id r) (Bold.session_id r)
               ("Moderate motion (FD=" +:+ format_f 3 (Bold.fd_mean r) +:+ "mm)")
               "moderate"]
       else []) ++
      (if lt (Bold.tsnr r) f40
       then [Entry.Make (Bold.subject_id r) (Bold.session_id r)
               ("Low tSNR (" +:+ format_f 2 (Bold.tsnr r) +:+ ")") "moderate"]
       else []))%list) ∧
  (∀ a : T1w.metrics float64,
     QC.create_exclusion_list None (Some [a]) =
     if lt (T1w.snr a) f8
     then [Entry.Make (T1w.subject_id a) (T1w.session_id a)
             ("Very low SNR (" +:+ format_f 2 (T1w.snr a) +:+ ")") "high"]
     else []) ∧
  (∀ bold_df t1w_df,
     QC.create_exclusion_list bold_df t1w_df ≡ₚ
     (flat_map (fun r => QC.create_exclusion_list (Some [r]) None)
        (default [] bold_df) ++
      flat_map (fun a => QC.create_exclusion_list None (Some [a]))
        (default [] t1w_df))%list) ∧
  (∀ sid ses task fd_num fd_perc snr gcor dvars_std dvars_nstd aor aqi,
     QC.create_exclusion_list
       (Some [Bold.Metrics sid ses task Scenario.f0_95 fd_num fd_perc snr
                Scenario.f35 gcor dvars_std dvars_nstd aor aqi]) None =
     [Entry.Make sid ses "High motion (FD=0.950mm)" "high";
      Entry.Make sid ses "Low tSNR (35.00)" "moderate"]) ∧
  (∀ sid ses task fd_num fd_perc snr gcor dvars_std dvars_nstd aor aqi,
     QC.create_exclusion_list
       (Some [Bold.Metrics sid ses task Scenario.f0_3 fd_num fd_perc snr
                Scenario.f60 gcor dvars_std dvars_nstd aor aqi]) None = []).
Proof.
  split; [|split; [|split; [|split]]].
  - intros r. rewrite create_exclusion_list_unfold, app_nil_r.
    unfold QC.high_motion, QC.mod_motion, QC.low_tsnr; simpl.
    destruct (gt (Bold.fd_mean r) f0_9),
      (gt (Bold.fd_mean r) f0_5 && le (Bold.fd_mean r) f0_9),
      (lt (Bold.tsnr r) f40); reflexivity.
  - intros a. rewrite create_exclusion_list_unfold.
    unfold QC.low_snr; simpl. destruct (lt (T1w.snr a) f8); reflexivity.
  - intros bold_df t1w_df. rewrite create_exclusion_list_unfold.
    apply Permutation_app.
    + destruct bold_df as [df|]; [|reflexivity]. simpl.
      unfold QC.high_motion, QC.mod_motion, QC.low_tsnr.
      rewrite selections_by_row.
      rewrite (flat_map_ext _ (fun r => QC.create_exclusion_list (Some [r]) None));
        [reflexivity|].
      intros r. rewrite create_exclusion_list_unfold, app_nil_r. reflexivity.
    + destruct t1w_df as [df|]; [|reflexivity]. simpl.
      unfold QC.low_snr. rewrite selection_by_row.
      rewrite (flat_map_ext _ (fun a => QC.create_exclusion_list None (Some [a])));
        [reflexivity|].
      intros a. rewrite create_exclusion_list_unfold. reflexivity.
  - intros. reflexivity.
  - intros. reflexivity.
Qed.

(** C5. The two motion rules never hold of the same fd_mean: no value is
    both > 0.9 and in (0.5, 0.9], no row is in both selections, and the
    list for one record carries the high motion entry, or the moderate
    motion entry, or neither, never both. *)
Theorem motion_rules_mutually_exclusive :
  (∀ x : float64, gt x f0_9 && (gt x f0_5 && le x f0_9) = false) ∧
  (∀ bold_df,
     QC.high_motion (QC.mod_motion bold_df) = [] ∧
     QC.mod_motion (QC.high_motion bold_df) = []) ∧
  (∀ bold_df,
     (length (QC.high_motion bold_df) + length (QC.mod_motion bold_df)
      ≤ length bold_df)%nat) ∧
  (∀ r : Bold.metrics float64,
     QC.create_exclusion_list (Some [r]) None =
     ((if gt (Bold.fd_mean r) f0_9 then [QC.high_motion_entry r]
       else if gt (Bold.fd_mean r) f0_5 then [QC.mod_motion_entry r]
       else []) ++
      (if lt (Bold.tsnr r) f40 then [QC.low_tsnr_entry r] else []))%list).
Proof.
  assert (Hx : ∀ x : float64, gt x f0_9 && (gt x f0_5 && le x f0_9) = false).
  { intros x. destruct (gt x f0_9) eqn:Hhigh; [|reflexivity].
    rewrite (gt_not_le _ _ Hhigh), andb_false_r. reflexivity. }
  split; [exact Hx|split; [|split]].
  - intros bold_df. unfold QC.high_motion, QC.mod_motion.
    split; induction bold_df as [|r l IH]; simpl; try reflexivity.
    + destruct (gt (Bold.fd_mean r) f0_5 && le (Bold.fd_mean r) f0_9) eqn:Hm;
        [|exact IH].
      simpl. specialize (Hx (Bold.fd_mean r)). rewrite Hm, andb_true_r in Hx.
      rewrite Hx. exact IH.
    + destruct (gt (Bold.fd_mean r) f0_9) eqn:Hh; [|exact IH].
      simpl. specialize (Hx (Bold.fd_mean r)). rewrite Hh in Hx. simpl in Hx.
      rewrite Hx. exact IH.
  - intros bold_df. unfold QC.high_motion, QC.mod_motion.
    induction bold_df as [|r l IH]; simpl; [lia|].
    specialize (Hx (Bold.fd_mean r)).
    destruct (gt (Bold.fd_mean r) f0_9); simpl in *;
      [rewrite Hx; simpl; lia|].
    destruct (gt (Bold.fd_mean r) f0_5 && le (Bold.fd_mean r) f0_9);
      simpl; lia.
  - intros r. rewrite create_exclusion_list_unfold, app_nil_r.
    unfold QC.high_motion, QC.mod_motion, QC.low_tsnr; simpl.
    specialize (Hx (Bold.fd_mean r)).
    destruct (gt (Bold.fd_mean r) f0_9) eqn:Hh; simpl in *.
    + rewrite Hx. destruct (lt (Bold.tsnr r) f40); reflexivity.
    + destruct (gt (Bold.fd_mean r) f0_5) eqn:Hm; simpl;
        [|destruct (lt (Bold.tsnr r) f40); reflexivity].
      rewrite (le_of_not_gt _ f0_9 f0_5);
        [destruct (lt (Bold.tsnr r) f40); reflexivity
        |discriminate|exact Hm|exact Hh].
Qed.

(** C9. A metric that is nan triggers no rule on it: a row whose fd_mean
    is nan is in neither motion selection and not among the high motion
    flags, a row whose tsnr is nan is not in the low tSNR selection or
    flags, an anatomical row whose snr (efc) is nan is not in the low SNR
    selection or flags (the high EFC flags); such rows add no entry to
    the exclusion list. *)
Theorem nan_metric_triggers_no_rule :
  (∀ pre post (r : Bold.metrics float64),
     Bold.fd_mean r = nan →
     QC.high_motion (pre ++ r :: post) = QC.high_motion (pre ++ post) ∧
     QC.mod_motion (pre ++ r :: post) = QC.mod_motion (pre ++ post) ∧
     QC.bold_high_motion (QC.generate_bold_summary (pre ++ r :: post)) =
     QC.bold_high_motion (QC.generate_bold_summary (pre ++ post))) ∧
  (∀ pre post (r : Bold.metrics float64),
     Bold.tsnr r = nan →
     QC.low_tsnr (pre ++ r :: post) = QC.low_tsnr (pre ++ post) ∧
     QC.bold_low_tsnr (QC.generate_bold_summary (pre ++ r :: post)) =
     QC.bold_low_tsnr (QC.generate_bold_summary (pre ++ post))) ∧
  (∀ pre post (a : T1w.metrics float64),
     T1w.snr a = nan →
     QC.low_snr (pre ++ a :: post) = QC.low_snr (pre ++ post) ∧
     QC.t1w_low_snr (QC.generate_t1w_summary (pre ++ a :: post)) =
     QC.t1w_low_snr (QC.generate_t1w_summary (pre ++ post))) ∧
  (∀ pre post (a : T1w.metrics float64),
     T1w.efc a = nan →
     QC.t1w_high_efc (QC.generate_t1w_summary (pre ++ a :: post)) =
     QC.t1w_high_efc (QC.generate_t1w_summary (pre ++ post))) ∧
  (∀ pre post (r : Bold.metrics float64) t1w_df,
     Bold.fd_mean r = nan → Bold.tsnr r = nan →
     QC.create_exclusion_list (Some (pre ++ r :: post)) t1w_df =
     QC.create_exclusion_list (Some (pre ++ post)) t1w_df) ∧
  (∀ pre post (a : T1w.metrics float64) bold_df,
     T1w.snr a = nan →
     QC.create_exclusion_list bold_df (Some (pre ++ a :: post)) =
     QC.create_exclusion_list bold_df (Some (pre ++ post))).
Proof.
  unfold QC.generate_bold_summary, QC.generate_t1w_summary, QC.high_motion,
    QC.mod_motion, QC.low_tsnr, QC.low_snr; simpl.
  repeat split; intros; rewrite ?create_exclusion_list_unfold;
    unfold QC.high_motion, QC.mod_motion, QC.low_tsnr, QC.low_snr;
    rewrite ?(filter_drop _ pre post);
    repeat match goal with
           | Hn : _ = nan |- _ => rewrite Hn
           end;
    rewrite ?gt_nan, ?lt_nan; reflexivity.
Qed.

(** C9 on a row whose motion and tSNR are undefined and on an anatomical
    row whose SNR and EFC are undefined. *)
Lemma nan_metric_triggers_no_rule_witness :
  QC.high_motion ([] ++ Scenario.bold_row nan nan :: []) = QC.high_motion ([] ++ []) ∧
  QC.low_tsnr ([] ++ Scenario.bold_row nan nan :: []) = QC.low_tsnr ([] ++ []) ∧
  QC.low_snr ([] ++ Scenario.t1w_row nan nan :: []) = QC.low_snr ([] ++ []) ∧
  QC.t1w_high_efc (QC.generate_t1w_summary ([] ++ Scenario.t1w_row nan nan :: [])) =
  QC.t1w_high_efc (QC.generate_t1w_summary ([] ++ [])) ∧
  QC.create_exclusion_list (Some ([] ++ Scenario.bold_row nan nan :: [])) None =
  QC.create_exclusion_list (Some ([] ++ [])) None ∧
  QC.create_exclusion_list None (Some ([] ++ Scenario.t1w_row nan nan :: [])) =
  QC.create_exclusion_list None (Some ([] ++ [])).
Proof.
  destruct nan_metric_triggers_no_rule as (H1 & H2 & H3 & H4 & H5 & H6).
  split; [exact (proj1 (H1 [] [] (Scenario.bold_row nan nan) eq_refl))|].
  split; [exact (proj1 (H2 [] [] (Scenario.bold_row nan nan) eq_refl))|].
  split; [exact (proj1 (H3 [] [] (Scenario.t1w_row nan nan) eq_refl))|].
  split; [exact (H4 [] [] (Scenario.t1w_row nan nan) eq_refl)|].
  split; [exact (H5 [] [] (Scenario.bold_row nan nan) None eq_refl eq_refl)|].
  exact (H6 [] [] (Scenario.t1w_row nan nan) None eq_refl).
Defined.

(** ** Properties of the metric loaders *)

Ltac run_outcome :=
  unfold mbind, outcome_bind, mret, outcome_ret, get; simpl.

(** The record of a well-formed functional file, field by field. *)
Lemma bold_record_ok (d meta : gmap string json) :
  bids_meta d = Some meta →
  QC.bold_record (JObj d) =
  Ok (Bold.Metrics
        (default (JStr "unknown") (meta !! "subject_id"))
        (default (JStr "unknown") (meta !! "session_id"))
        (default (JStr "unknown") (meta !! "task_id"))
        (default (JNum nan) (d !! "fd_mean"))
        (default (JNum nan) (d !! "fd_num"))
        (default (JNum nan) (d !! "fd_perc"))
        (default (JNum nan) (d !! "snr"))
        (default (JNum nan) (d !! "tsnr"))
        (default (JNum nan) (d !! "gcor"))
        (default (JNum nan) (d !! "dvars_std"))
        (default (JNum nan) (d !! "dvars_nstd"))
        (default (JNum nan) (d !! "aor"))
        (default (JNum nan) (d !! "aqi"))).
Proof.
  unfold bids_meta, QC.bold_record. run_outcome. intros Hmeta.
  destruct (d !! "bids_meta") as [[]|]; try discriminate;
    injection Hmeta as <-; reflexivity.
Qed.

(** The record of a well-formed anatomical file, field by field. *)
Lemma t1w_record_ok (d meta : gmap string json) :
  bids_meta d = Some meta →
  QC.t1w_record (JObj d) =
  Ok (T1w.Metrics
        (default (JStr "unknown") (meta !! "subject_id"))
        (default (JStr "unknown") (meta !! "session_id"))
        (default (JNum nan) (d !! "snr_total"))
        (default (JNum nan) (d !! "cnr"))
        (default (JNum nan) (d !! "fber"))
        (default (JNum nan) (d !! "efc"))
        (default (JNum nan) (d !! "qi_1"))
        (default (JNum nan) (d !! "qi_2"))
        (default (JNum nan) (d !! "cjv"))
        (default (JNum nan) (d !! "wm2max"))).
Proof.
  unfold bids_meta, QC.t1w_record. run_outcome. intros Hmeta.
  destruct (d !! "bids_meta") as [[]|]; try discriminate;
    injection Hmeta as <-; reflexivity.
Qed.

(** The loop yields one record per file, in order, when each file yields
    one. *)
Lemma load_loop_ok {R : Type} (record : json → outcome R) (files : list json) :
  Forall (fun data => ∃ r, record data = Ok r) files →
  ∀ metrics_list, ∃ rows,
    QC.load_loop record files metrics_list = Ok (metrics_list ++ rows) ∧
    Forall2 (fun data r => record data = Ok r) files rows.
Proof.
  induction 1 as [|data files [r Hr] _ IH]; intros metrics_list.
  - exists []. rewrite app_nil_r. split; [reflexivity|constructor].
  - destruct (IH (metrics_list ++ [r])) as (rows & Hrows & Hall).
    exists (r :: rows). split; [|constructor; assumption].
    simpl. rewrite Hr. run_outcome. rewrite Hrows, <- app_assoc. reflexivity.
Qed.

Lemma load_bold_metrics_ok (files : list json) :
  files ≠ [] → Forall metric_file files →
  ∃ rows, QC.load_bold_metrics files = Ok (Some rows) ∧
          Forall2 (fun data r => QC.bold_record data = Ok r) files rows.
Proof.
  intros Hne Hfiles.
  destruct (load_loop_ok QC.bold_record files) with (metrics_list := @nil (Bold.metrics json))
    as (rows & Hrows & Hall).
  { eapply Forall_impl; [exact Hfiles|].
    intros data (d & meta & -> & Hmeta). eexists. apply bold_record_ok, Hmeta. }
  exists rows. split; [|exact Hall].
  unfold QC.load_bold_metrics. destruct files; [congruence|].
  rewrite Hrows. reflexivity.
Qed.

Lemma load_t1w_metrics_ok (files : list json) :
  files ≠ [] → Forall metric_file files →
  ∃ rows, QC.load_t1w_metrics files = Ok (Some rows) ∧
          Forall2 (fun data r => QC.t1w_record data = Ok r) files rows.
Proof.
  intros Hne Hfiles.
  destruct (load_loop_ok QC.t1w_record files) with (metrics_list := @nil (T1w.metrics json))
    as (rows & Hrows & Hall).
  { eapply Forall_impl; [exact Hfiles|].
    intros data (d & meta & -> & Hmeta). eexists. apply t1w_record_ok, Hmeta. }
  exists rows. split; [|exact Hall].
  unfold QC.load_t1w_metrics. destruct files; [congruence|].
  rewrite Hrows. reflexivity.
Qed.

Lemma bold_record_absent (d meta : gmap string json) r :
  bids_meta d = Some meta → QC.bold_record (JObj d) = Ok r →
  bold_absent_is_nan d r.
Proof.
  intros Hmeta Hr. rewrite (bold_record_ok d meta Hmeta) in Hr.
  injection Hr as <-. unfold bold_absent_is_nan; simpl.
  repeat split; intros ->; reflexivity.
Qed.

Lemma t1w_record_absent (d meta : gmap string json) r :
  bids_meta d = Some meta → QC.t1w_record (JObj d) = Ok r →
  t1w_absent_is_nan d r.
Proof.
  intros Hmeta Hr. rewrite (t1w_record_ok d meta Hmeta) in Hr.
  injection Hr as <-. unfold t1w_absent_is_nan; simpl.
  repeat split; intros ->; reflexivity.
Qed.

(** C4, as the specification words it, fails: a file whose top-level
    object has the key "snr" with the value 12 gives a record whose snr
    is nan. *)
Lemma snr_key_not_read :
  QC.load_t1w_metrics [JObj t1w_file_snr] =
  Ok (Some [T1w.Metrics (JStr "unknown") (JStr "unknown") (JNum nan)
              (JNum nan) (JNum nan) (JNum nan) (JNum nan) (JNum nan)
              (JNum nan) (JNum nan)]) ∧
  JNum nan ≠ JNum Scenario.f12.
Proof. split; [reflexivity|discriminate]. Qed.

(** C4, amended. The snr of an anatomical record is the value of the
    top-level key "snr_total": a file whose object has that key with a
    numeric value gives a record whose snr is that value, whatever the
    key "snr" holds. *)
Theorem t1w_snr_from_snr_total (d meta : gmap string json) (x : float64) :
  bids_meta d = Some meta →
  d !! "snr_total" = Some (JNum x) →
  ∃ r, QC.load_t1w_metrics [JObj d] = Ok (Some [r]) ∧
       T1w.snr r = JNum x ∧
       ∀ v, QC.t1w_record (JObj (<["snr" := v]> d)) =
            QC.t1w_record (JObj (delete "snr" d)).
Proof.
  intros Hmeta Hsnr. eexists. split; [|split].
  - unfold QC.load_t1w_metrics. simpl.
    rewrite (t1w_record_ok d meta Hmeta). reflexivity.
  - simpl. rewrite Hsnr. reflexivity.
  - intros v. unfold QC.t1w_record. run_outcome.
    rewrite !lookup_insert_ne, !lookup_delete_ne by discriminate.
    reflexivity.
Qed.

Lemma t1w_snr_from_snr_total_witness :
  ∃ r, QC.load_t1w_metrics [JObj t1w_file_snr_total] = Ok (Some [r]) ∧
       T1w.snr r = JNum Scenario.f12 ∧
       ∀ v, QC.t1w_record (JObj (<["snr" := v]> t1w_file_snr_total)) =
            QC.t1w_record (JObj (delete "snr" t1w_file_snr_total)).
Proof.
  apply (t1w_snr_from_snr_total t1w_file_snr_total ∅ Scenario.f12);
    reflexivity.
Defined.

(** C8. With no metric file the loaders return None and raise nothing.
    With files, they return one record per file, in order, and each
    metric whose key the file lacks is nan in the file's record (not
    zero). *)
Theorem loaders_none_or_nan_filled :
  QC.load_bold_metrics [] = Ok None ∧
  QC.load_t1w_metrics [] = Ok None ∧
  JNum nan ≠ JNum zero ∧
  (∀ files, files ≠ [] → Forall metric_file files →
     ∃ rows, QC.load_bold_metrics files = Ok (Some rows) ∧
             length rows = length files ∧
             Forall2 (fun data r => ∀ d, data = JObj d → bold_absent_is_nan d r)
               files rows) ∧
  (∀ files, files ≠ [] → Forall metric_file files →
     ∃ rows, QC.load_t1w_metrics files = Ok (Some rows) ∧
             length rows = length files ∧
             Forall2 (fun data r => ∀ d, data = JObj d → t1w_absent_is_nan d r)
               files rows).
Proof.
  split; [reflexivity|split; [reflexivity|split; [discriminate|split]]].
  - intros files Hne Hfiles.
    destruct (load_bold_metrics_ok files Hne Hfiles) as (rows & Hrows & Hall).
    exists rows. split; [exact Hrows|split].
    + symmetry. eapply Forall2_length, Hall.
    + clear Hrows Hne. induction Hall as [|data r files rows Hr _ IH];
        constructor.
      * intros d ->. apply Forall_inv in Hfiles.
        destruct Hfiles as (d' & meta & [= <-] & Hmeta).
        eapply bold_record_absent; eassumption.
      * apply IH. eapply Forall_inv_tail, Hfiles.
  - intros files Hne Hfiles.
    destruct (load_t1w_metrics_ok files Hne Hfiles) as (rows & Hrows & Hall).
    exists rows. split; [exact Hrows|split].
    + symmetry. eapply Forall2_length, Hall.
    + clear Hrows Hne. induction Hall as [|data r files rows Hr _ IH];
        constructor.
      * intros d ->. apply Forall_inv in Hfiles.
        destruct Hfiles as (d' & meta & [= <-] & Hmeta).
        eapply t1w_record_absent; eassumption.
      * apply IH. eapply Forall_inv_tail, Hfiles.
Qed.

Lemma metric_file_bold_file_tsnr : metric_file (JObj bold_file_tsnr).
Proof. exists bold_file_tsnr, ∅. split; reflexivity. Defined.

Lemma metric_file_t1w_file_snr_total : metric_file (JObj t1w_file_snr_total).
Proof. exists t1w_file_snr_total, ∅. split; reflexivity. Defined.

Lemma loaders_none_or_nan_filled_witness :
  (∃ rows, QC.load_bold_metrics [JObj bold_file_tsnr] = Ok (Some rows) ∧
           length rows = length [JObj bold_file_tsnr] ∧
           Forall2 (fun data r => ∀ d, data = JObj d → bold_absent_is_nan d r)
             [JObj bold_file_tsnr] rows) ∧
  (∃ rows, QC.load_t1w_metrics [JObj t1w_file_snr_total] = Ok (Some rows) ∧
           length rows = length [JObj t1w_file_snr_total] ∧
           Forall2 (fun data r => ∀ d, data = JObj d → t1w_absent_is_nan d r)
             [JObj t1w_file_snr_total] rows).
Proof.
  destruct loaders_none_or_nan_filled as (_ & _ & _ & Hbold & Ht1w).
  split.
  - apply Hbold; [discriminate|].
    constructor; [exact metric_file_bold_file_tsnr|constructor].
  - apply Ht1w; [discriminate|].
    constructor; [exact metric_file_t1w_file_snr_total|constructor].
Defined.

(** C10. A file without bids_meta, or whose bids_meta lacks subject_id,
    session_id or task_id, still gives a record, with "unknown" in the
    place of each identifier that is missing; the loaders keep one
    record per file. *)
Theorem missing_identifiers_are_unknown (d : gmap string json) :
  (d !! "bids_meta" = None →
     (∃ r, QC.bold_record (JObj d) = Ok r ∧
           Bold.subject_id r = JStr "unknown" ∧
           Bold.session_id r = JStr "unknown" ∧
           Bold.task r = JStr "unknown") ∧
     (∃ r, QC.t1w_record (JObj d) = Ok r ∧
           T1w.subject_id r = JStr "unknown" ∧
           T1w.session_id r = JStr "unknown")) ∧
  (∀ meta, d !! "bids_meta" = Some (JObj meta) →
     (∃ r, QC.bold_record (JObj d) = Ok r ∧
           Bold.subject_id r = default (JStr "unknown") (meta !! "subject_id") ∧
           Bold.session_id r = default (JStr "unknown") (meta !! "session_id") ∧
           Bold.task r = default (JStr "unknown") (meta !! "task_id")) ∧
     (∃ r, QC.t1w_record (JObj d) = Ok r ∧
           T1w.subject_id r = default (JStr "unknown") (meta !! "subject_id") ∧
           T1w.session_id r = default (JStr "unknown") (meta !! "session_id"))) ∧
  (metric_file (JObj d) →
     (∃ r, QC.load_bold_metrics [JObj d] = Ok (Some [r])) ∧
     (∃ r, QC.load_t1w_metrics [JObj d] = Ok (Some [r]))).
Proof.
  split; [|split].
  - intros Hd.
    assert (Hmeta : bids_meta d = Some ∅) by (unfold bids_meta; now rewrite Hd).
    split; eexists;
      (split; [first [apply (bold_record_ok d ∅ Hmeta)
                     |apply (t1w_record_ok d ∅ Hmeta)]|]);
      repeat split.
  - intros meta Hd.
    assert (Hmeta : bids_meta d = Some meta)
      by (unfold bids_meta; now rewrite Hd).
    split; eexists;
      (split; [first [apply (bold_record_ok d meta Hmeta)
                     |apply (t1w_record_ok d meta Hmeta)]|]);
      repeat split.
  - intros (d' & meta & [= <-] & Hmeta). split; eexists.
    + unfold QC.load_bold_metrics. simpl.
      rewrite (bold_record_ok d meta Hmeta). reflexivity.
    + unfold QC.load_t1w_metrics. simpl.
      rewrite (t1w_record_ok d meta Hmeta). reflexivity.
Qed.

Lemma metric_file_meta_subject_only : metric_file (JObj file_meta_subject_only).
Proof. exists file_meta_subject_only, meta_subject_only. split; reflexivity. Defined.

Lemma missing_identifiers_are_unknown_witness :
  (∃ r, QC.bold_record (JObj bold_file_tsnr) = Ok r ∧
        Bold.subject_id r = JStr "unknown" ∧
        Bold.session_id r = JStr "unknown" ∧
        Bold.task r = JStr "unknown") ∧
  (∃ r, QC.bold_record (JObj file_meta_subject_only) = Ok r ∧
        Bold.subject_id r = default (JStr "unknown") (meta_subject_only !! "subject_id") ∧
        Bold.session_id r = default (JStr "unknown") (meta_subject_only !! "session_id") ∧
        Bold.task r = default (JStr "unknown") (meta_subject_only !! "task_id")) ∧
  (∃ r, QC.load_t1w_metrics [JObj file_meta_subject_only] = Ok (Some [r])).
Proof.
  split; [|split].
  - exact (proj1 (proj1 (missing_identifiers_are_unknown bold_file_tsnr)
                    eq_refl)).
  - exact (proj1 (proj1 (proj2 (missing_identifiers_are_unknown
                                   file_meta_subject_only))
                    meta_subject_only eq_refl)).
  - exact (proj2 (proj2 (proj2 (missing_identifiers_are_unknown
                                   file_meta_subject_only))
                    metric_file_meta_subject_only)).
Defined.

(** ** Properties of the confound selector *)

Lemma index_lookup (c : string) (columns : list string) (k : nat) :
  NoDup columns → columns !! k = Some c → Analysis.index c columns = k.
Proof.
  intros Hnd. revert k. induction Hnd as [|c' rest Hnotin _ IH]; intros k Hk.
  - destruct k; discriminate.
  - destruct k as [|k]; simpl in *.
    + injection Hk as ->. now rewrite String.eqb_refl.
    + destruct (String.eqb_spec c c') as [->|_].
      * exfalso. apply Hnotin. eapply list_elem_of_lookup_2, Hk.
      * f_equal. apply IH, Hk.
Qed.

Lemma load_confounds_unfold (df : Frame.t) (names : option (list string)) :
  Analysis.load_confounds df names =
  match Analysis.available_confounds df
          (default Analysis.default_confounds names) with
  | [] => None
  | available =>
      Some (map (fun row =>
                   map (fun c =>
                          filled (nth (Analysis.index c (Frame.columns df)) row nan))
                       available)
              (Frame.rows df))
  end.
Proof.
  unfold Analysis.load_confounds, Analysis.fillna0, Analysis.getitem; simpl.
  destruct (Analysis.available_confounds df _); [reflexivity|].
  rewrite map_map. f_equal. apply map_ext. intros row.
  rewrite map_map. reflexivity.
Qed.

Lemma filled_not_nan (x : float64) : isnan (filled x) = false.
Proof. unfold filled. destruct x; reflexivity. Qed.

Lemma lookup_map {A B : Type} (f : A → B) (l : list A) (i : nat) :
  map f l !! i = f <$> l !! i.
Proof.
  revert i. induction l as [|a l IH]; intros [|i]; simpl; auto.
Qed.

Lemma selected_rows_shape (columns selected : list string) (rows : ndarray) :
  Forall (fun row => length row = length selected ∧
                     Forall (fun x => isnan x = false) row)
    (map (fun row =>
            map (fun c => filled (nth (Analysis.index c columns) row nan))
                selected)
         rows).
Proof.
  induction rows as [|row rows IH]; constructor; [|exact IH].
  split; [apply length_map|]. clear.
  induction selected as [|c selected IH]; constructor;
    [apply filled_not_nan|exact IH].
Qed.

(** C6. The confounds selected are the requested names that the header
    has, in the requested order: never more than were requested, each one
    a column of the table. The array returned has one row per time
    point and one cell per selected name, the cell that the table has in
    that column with 0 in the place of a missing value, so that no cell
    is missing. A table with the columns trans_x, rot_z and csf and the
    default request give these three columns, zero-filled, in that
    order. *)
Theorem load_confounds_selects_requested_present
    (df : Frame.t) (names : option (list string)) :
  let requested := default Analysis.default_confounds names in
  let available := Analysis.available_confounds df requested in
  available `sublist_of` requested ∧
  (∀ c, c ∈ available ↔ c ∈ requested ∧ c ∈ Frame.columns df) ∧
  (length available ≤ length requested)%nat ∧
  (Analysis.load_confounds df names = None ↔ available = []) ∧
  Forall (fun row => length row = length available ∧
                     Forall (fun x => isnan x = false) row)
    (default [] (Analysis.load_confounds df names)) ∧
  (∀ values, Analysis.load_confounds df names = Some values →
     length values = length (Frame.rows df)) ∧
  (∀ i j k c row x,
     NoDup (Frame.columns df) →
     available !! j = Some c → Frame.columns df !! k = Some c →
     Frame.rows df !! i = Some row → row !! k = Some x →
     ∃ values, Analysis.load_confounds df names = Some values ∧
               values !! i ≫= (.!! j) = Some (filled x)) ∧
  Analysis.available_confounds confounds_A Analysis.default_confounds =
    ["trans_x"; "rot_z"; "csf"] ∧
  Analysis.load_confounds confounds_A None =
    Some [ [zero; Scenario.f0_3; Scenario.f12]; [f0_5; zero; Scenario.f35] ].
Proof.
  intros requested available.
  split; [apply sublist_filter|].
  split; [intros c; unfold available, Analysis.available_confounds;
          rewrite list_elem_of_filter; tauto|].
  split; [apply length_filter|].
  rewrite load_confounds_unfold. fold requested. fold available.
  split; [destruct available; split; congruence|].
  split.
  { destruct available as [|c0 rest] eqn:Hav; [constructor|].
    apply selected_rows_shape. }
  split.
  { intros values Hv. destruct available; [discriminate|].
    injection Hv as <-. apply length_map. }
  split; [|split; vm_compute; reflexivity].
  intros i j k c row x Hnd Hj Hk Hi Hx.
  destruct available as [|c0 rest] eqn:Hav; [destruct j; discriminate|].
  eexists. split; [reflexivity|].
  rewrite (lookup_map _ (Frame.rows df) i), Hi.
  unfold fmap, option_fmap, option_map, mbind, option_bind.
  rewrite (lookup_map _ (c0 :: rest) j), Hj.
  unfold fmap, option_fmap, option_map.
  rewrite (index_lookup c _ k Hnd Hk).
  rewrite (nth_lookup_Some row k nan x Hx). reflexivity.
Qed.

Lemma load_confounds_selects_requested_present_witness :
  (∃ values, Analysis.load_confounds confounds_A None = Some values ∧
             values !! 0%nat ≫= (.!! 1%nat) = Some (filled Scenario.f0_3)) ∧
  (∃ values, Analysis.load_confounds confounds_A None = Some values ∧
             values !! 1%nat ≫= (.!! 1%nat) = Some (filled nan)) ∧
  length [ [zero; Scenario.f0_3; Scenario.f12]; [f0_5; zero; Scenario.f35] ] =
    length (Frame.rows confounds_A).
Proof.
  destruct (load_confounds_selects_requested_present confounds_A None)
    as (_ & _ & _ & _ & _ & Hlen & Hcell & _ & _).
  assert (Hnd : NoDup (Frame.columns confounds_A))
    by (apply (bool_decide_unpack _); vm_compute; exact I).
  split; [|split].
  - apply (Hcell 0%nat 1%nat 1%nat "rot_z"
             [nan; Scenario.f0_3; Scenario.f12] Scenario.f0_3 Hnd);
      reflexivity.
  - apply (Hcell 1%nat 1%nat 1%nat "rot_z" [f0_5; nan; Scenario.f35] nan Hnd);
      reflexivity.
  - apply Hlen. vm_compute. reflexivity.
Defined.

(** ** Properties of the input locator *)

Lemma filter_first {A : Type} (p : A → bool) (l : list A) (x : A) (r : list A) :
  List.filter p l = x :: r →
  ∃ pre post, l = pre ++ x :: post ∧ Forall (fun a => p a = false) pre ∧
              p x = true.
Proof.
  induction l as [|a l IH]; simpl; [discriminate|].
  destruct (p a) eqn:Hpa.
  - intros [= -> <-]. exists [], l. repeat split; [constructor|exact Hpa].
  - intros Hf. destruct (IH Hf) as (pre & post & -> & Hpre & Hx).
    exists (a :: pre), post. repeat split; [constructor; assumption|exact Hx].
Qed.

Lemma glob_first (directory : string) (listing : list string) (pat : string)
    (path : string) (others : list string) :
  Analysis.glob directory listing pat = path :: others →
  first_enumerated pat directory listing path.
Proof.
  unfold Analysis.glob. intros Hg.
  destruct (List.filter (Analysis.fnmatch pat) listing) as [|name names] eqn:Hf;
    [discriminate|].
  injection Hg as <- _.
  destruct (filter_first _ _ _ _ Hf) as (pre & post & -> & Hpre & Hname).
  exists pre, name, post. repeat split; assumption.
Qed.

(** C3, as the specification words it, fails: in a directory that is
    enumerated with the file of run 2 before the file of run 1, [__init__]
    takes the file of run 2 as the functional scan, and the
    lexicographically-first candidate is the file of run 1. *)
Lemma init_not_lexicographically_first :
  Analysis.init listing_two_runs "derivatives/fmriprep" "sub-01" "ses-01" =
  Ok (Analysis.Make "derivatives/fmriprep" "sub-01" "ses-01"
        "derivatives/fmriprep/sub-01/ses-01/func"
        "derivatives/fmriprep/sub-01/ses-01/func/sub-01_ses-01_task-rest_run-2_space-MNI152NLin2009cAsym_desc-preproc_bold.nii.gz"
        "derivatives/fmriprep/sub-01/ses-01/func/sub-01_ses-01_task-rest_run-1_desc-confounds_timeseries.tsv"
        None) ∧
  lexicographically_first
    (Analysis.glob "derivatives/fmriprep/sub-01/ses-01/func" listing_two_runs
       "*_space-MNI*_desc-preproc_bold.nii.gz") =
  Some "derivatives/fmriprep/sub-01/ses-01/func/sub-01_ses-01_task-rest_run-1_space-MNI152NLin2009cAsym_desc-preproc_bold.nii.gz" ∧
  "derivatives/fmriprep/sub-01/ses-01/func/sub-01_ses-01_task-rest_run-2_space-MNI152NLin2009cAsym_desc-preproc_bold.nii.gz" ≠
  "derivatives/fmriprep/sub-01/ses-01/func/sub-01_ses-01_task-rest_run-1_space-MNI152NLin2009cAsym_desc-preproc_bold.nii.gz".
Proof.
  split; [vm_compute; reflexivity|split; [vm_compute; reflexivity|]].
  intros Heq. apply String.eqb_eq in Heq. vm_compute in Heq. discriminate.
Qed.

(** C3, amended. When a functional scan and a confounds table are found,
    however many candidates match, [__init__] raises nothing and takes for
    each of the three files the first candidate in the order in which the
    directory is enumerated (for the mask, none when no candidate
    matches). *)
Theorem init_selects_first_enumerated
    (listing : list string) (fmriprep_dir subject_id session_id : string) :
  let subject_dir :=
    fmriprep_dir +:+ "/" +:+ subject_id +:+ "/" +:+ session_id +:+ "/" +:+ "func" in
  let bold_files :=
    Analysis.glob subject_dir listing "*_space-MNI*_desc-preproc_bold.nii.gz" in
  let confounds_files :=
    Analysis.glob subject_dir listing "*_desc-confounds_timeseries.tsv" in
  let mask_files :=
    Analysis.glob subject_dir listing "*_space-MNI*_desc-brain_mask.nii.gz" in
  bold_files ≠ [] → confounds_files ≠ [] →
  ∃ self,
    Analysis.init listing fmriprep_dir subject_id session_id = Ok self ∧
    head bold_files = Some (Analysis.bold_file self) ∧
    first_enumerated "*_space-MNI*_desc-preproc_bold.nii.gz" subject_dir
      listing (Analysis.bold_file self) ∧
    head confounds_files = Some (Analysis.confounds_file self) ∧
    first_enumerated "*_desc-confounds_timeseries.tsv" subject_dir listing
      (Analysis.confounds_file self) ∧
    head mask_files = Analysis.mask_file self ∧
    (∀ mask, Analysis.mask_file self = Some mask →
       first_enumerated "*_space-MNI*_desc-brain_mask.nii.gz" subject_dir
         listing mask).
Proof.
  intros subject_dir bold_files confounds_files mask_files Hb Hc.
  unfold Analysis.init. fold subject_dir. fold bold_files.
  fold confounds_files. fold mask_files.
  destruct bold_files as [|bold_file bolds] eqn:Hbold; [congruence|].
  destruct confounds_files as [|confounds_file confs] eqn:Hconf; [congruence|].
  eexists. split; [reflexivity|]. simpl.
  split; [reflexivity|]. split; [eapply glob_first, Hbold|].
  split; [reflexivity|]. split; [eapply glob_first, Hconf|].
  destruct mask_files as [|mask_file masks] eqn:Hmask; simpl.
  - split; [reflexivity|discriminate].
  - split; [reflexivity|]. intros mask [= <-]. eapply glob_first, Hmask.
Qed.

Lemma init_selects_first_enumerated_witness :
  ∃ self,
    Analysis.init listing_two_runs "derivatives/fmriprep" "sub-01" "ses-01" =
    Ok self ∧
    head (Analysis.glob "derivatives/fmriprep/sub-01/ses-01/func"
            listing_two_runs "*_space-MNI*_desc-preproc_bold.nii.gz") =
    Some (Analysis.bold_file self) ∧
    first_enumerated "*_space-MNI*_desc-preproc_bold.nii.gz"
      "derivatives/fmriprep/sub-01/ses-01/func" listing_two_runs
      (Analysis.bold_file self).
Proof.
  destruct (init_selects_first_enumerated listing_two_runs
              "derivatives/fmriprep" "sub-01" "ses-01")
    as (self & Hinit & Hhead & Hfirst & _).
  - vm_compute. discriminate.
  - vm_compute. discriminate.
  - exists self. split; [exact Hinit|]. split; [exact Hhead|exact Hfirst].
Defined.

(** ** Properties of the parcellation reducer and of the pipeline *)

(** C7. For an atlas selector other than "aal" and "harvard_oxford",
    [extract_roi_timeseries] returns the null pair, whatever the library
    calls do, and the pipeline that receives the null pair ends with None
    and leaves the disk as it was: no file written, no write attempted. *)
Theorem unknown_atlas_null_result_no_files `{Nilearn}
    (self : Analysis.t) (cleaned_img : image) (atlas : string) (d : disk) :
  atlas ≠ "aal" → atlas ≠ "harvard_oxford" →
  Analysis.extract_roi_timeseries cleaned_img atlas = None ∧
  Analysis.finish_analysis self
    (Analysis.extract_roi_timeseries cleaned_img atlas) d = (Ok None, d) ∧
  Analysis.finish_analysis self None d = (Ok None, d).
Proof.
  intros Haal Hho.
  assert (Hnull : Analysis.extract_roi_timeseries cleaned_img atlas = None).
  { unfold Analysis.extract_roi_timeseries.
    apply String.eqb_neq in Haal. apply String.eqb_neq in Hho.
    rewrite Haal, Hho. destruct import_datasets; reflexivity. }
  rewrite Hnull. repeat split.
Qed.

Lemma unknown_atlas_null_result_no_files_witness :
  @Analysis.extract_roi_timeseries nilearn_ok tt "unknown_atlas" = None ∧
  @Analysis.finish_analysis nilearn_ok sub_01
    (@Analysis.extract_roi_timeseries nilearn_ok tt "unknown_atlas")
    disk_labels_faulty = (Ok None, disk_labels_faulty) ∧
  @Analysis.finish_analysis nilearn_ok sub_01 None disk_labels_faulty =
    (Ok None, disk_labels_faulty).
Proof.
  apply (@unknown_atlas_null_result_no_files nilearn_ok sub_01 tt
           "unknown_atlas" disk_labels_faulty); discriminate.
Defined.

(** With the atlas "aal" and library calls that succeed, the pipeline does
    write: the four artifacts are attempted after the output directory. *)
Example aal_pipeline_writes_artifacts :
  let res :=
    @Analysis.run_complete_analysis nilearn_ok sub_01
      (Disk ∅ ∅ ∅ []) in
  res.1 = Ok (Some "analysis_outputs") ∧
  attempted res.2 =
    [ "analysis_outputs";
      "analysis_outputs/sub-01_timeseries.npy";
      "analysis_outputs/sub-01_connectivity.npy";
      "analysis_outputs/sub-01_labels.txt";
      "analysis_outputs/sub-01_connectivity.csv" ] ∧
  files res.2 !! "analysis_outputs/sub-01_labels.txt" =
    Some (Text ("0" +:+ String (ascii_of_nat 9) "Precentral_L"
                  +:+ String (ascii_of_nat 10)
                        ("1" +:+ String (ascii_of_nat 9) "Precentral_R"
                           +:+ String (ascii_of_nat 10) ""))).
Proof. repeat split; vm_compute; reflexivity. Qed.

(** ** Properties of the artifact writer *)

Lemma mkdir_ok (path : string) (d : disk) :
  path ∉ faulty d →
  Analysis.mkdir path d =
  (Ok tt, Disk (files d) ({[path]} ∪ dirs d) (faulty d) (attempted d ++ [path])).
Proof.
  intros Hp. unfold Analysis.mkdir; simpl. now rewrite decide_False.
Qed.

Lemma write_ok (path : string) (c : content) (d : disk) :
  path ∉ faulty d →
  Analysis.write path c d =
  (Ok tt, Disk (<[path := c]> (files d)) (dirs d) (faulty d)
            (attempted d ++ [path])).
Proof.
  intros Hp. unfold Analysis.write; simpl. now rewrite decide_False.
Qed.

Lemma write_fail (path : string) (c : content) (d : disk) :
  path ∈ faulty d →
  Analysis.write path c d =
  (Raise (OSError path),
   Disk (files d) (dirs d) (faulty d) (attempted d ++ [path])).
Proof.
  intros Hp. unfold Analysis.write; simpl. now rewrite decide_True.
Qed.

Lemma append_inj_l (a x y : string) : a +:+ x = a +:+ y → x = y.
Proof.
  induction a as [|ch a IH]; simpl; [auto|]. intros [= E]. auto.
Qed.

Lemma append_ne_l (a x : string) : x ≠ "" → a +:+ x ≠ a.
Proof.
  intros Hx. induction a as [|ch a IH]; simpl; [exact Hx|].
  intros [= E]. auto.
Qed.

Ltac path_ne :=
  let E := fresh "E" in
  intros E;
  first [ now (repeat apply append_inj_l in E; discriminate E)
        | now (symmetry in E; repeat apply append_inj_l in E; discriminate E)
        | now (exfalso; revert E; apply append_ne_l; simpl; discriminate)
        | now (exfalso; symmetry in E; revert E; apply append_ne_l; simpl;
               discriminate) ].

(** Reading the disk after the writes: the path read is one of the
    artifacts, and two artifacts never share a path. *)
Ltac read_disk :=
  simpl; rewrite ?lookup_insert_ne by path_ne; rewrite ?lookup_insert_eq;
  reflexivity.

Ltac each_artifact j Hj Hq :=
  destruct j as [|[|[|[|j]]]]; try lia; simpl in Hq; try discriminate Hq;
  injection Hq as <- <-.

(** C2, as the specification words it, fails: on a disk on which only the
    time-series file cannot be written, [save_results] raises at that
    write; the only paths on which anything was attempted are the output
    directory and the time-series file, and no file is on the disk,
    although the connectivity file could have been written. *)
Lemma timeseries_failure_skips_other_artifacts :
  let res :=
    Analysis.save_results sub_01 timeseries_2 connectivity_2 labels_2
      "analysis_outputs" disk_timeseries_faulty in
  res.1 = Raise (OSError "analysis_outputs/sub-01_timeseries.npy") ∧
  attempted res.2 =
    ["analysis_outputs"; "analysis_outputs/sub-01_timeseries.npy"] ∧
  files res.2 !! "analysis_outputs/sub-01_connectivity.npy" = None ∧
  "analysis_outputs/sub-01_connectivity.npy" ∉ faulty disk_timeseries_faulty.
Proof.
  split; [vm_compute; reflexivity|].
  split; [vm_compute; reflexivity|].
  split; [vm_compute; reflexivity|].
  unfold disk_timeseries_faulty; simpl.
  intros Hin. apply elem_of_singleton in Hin. discriminate.
Qed.

Section SaveResults.
Variables (self : Analysis.t) (timeseries connectivity_matrix : ndarray).
Variables (labels : list string) (output_dir : string) (d : disk).

Let arts := artifacts self timeseries connectivity_matrix labels output_dir.
Let res :=
  Analysis.save_results self timeseries connectivity_matrix labels output_dir d.

(** C2, amended. [save_results] writes the four artifacts one after the
    other and stops at the first write that fails: the exception of that
    write is the result, the artifacts before it are on the disk with
    their contents, and for the failed artifact and for those after it the
    disk is as it was, the later ones not being attempted. When no write
    fails the four artifacts are on the disk. *)
Theorem save_results_stops_at_first_failure :
  output_dir ∉ faulty d →
  (∀ i p c,
     arts !! i = Some (p, c) → p ∈ faulty d →
     (∀ j q c', (j < i)%nat → arts !! j = Some (q, c') → q ∉ faulty d) →
     res.1 = Raise (OSError p) ∧
     attempted res.2 = attempted d ++ output_dir :: (take (S i) arts).*1 ∧
     (∀ j q c', (j < i)%nat → arts !! j = Some (q, c') →
        files res.2 !! q = Some c') ∧
     (∀ j q c', (i ≤ j)%nat → arts !! j = Some (q, c') →
        files res.2 !! q = files d !! q) ∧
     (∀ j q c', (i < j)%nat → arts !! j = Some (q, c') →
        q ∉ output_dir :: (take (S i) arts).*1)) ∧
  ((∀ j q c', arts !! j = Some (q, c') → q ∉ faulty d) →
     res.1 = Ok output_dir ∧
     attempted res.2 = attempted d ++ output_dir :: arts.*1 ∧
     (∀ j q c', arts !! j = Some (q, c') → files res.2 !! q = Some c')).
Proof.
  intros Hdir. split.
  - intros i p c Hi Hp Hbefore.
    assert (Hq0 : (0 < i)%nat → output_dir +:+ "/" +:+ Analysis.subject_id self +:+ "_timeseries.npy"
                 ∉ faulty d)
      by (intros Hlt; exact (Hbefore 0%nat _ _ Hlt eq_refl)).
    assert (Hq1 : (1 < i)%nat → output_dir +:+ "/" +:+ Analysis.subject_id self +:+ "_connectivity.npy"
                 ∉ faulty d)
      by (intros Hlt; exact (Hbefore 1%nat _ _ Hlt eq_refl)).
    assert (Hq2 : (2 < i)%nat → output_dir +:+ "/" +:+ Analysis.subject_id self +:+ "_labels.txt"
                 ∉ faulty d)
      by (intros Hlt; exact (Hbefore 2%nat _ _ Hlt eq_refl)).
    clear Hbefore.
    destruct i as [|[|[|[|i]]]]; simpl in Hi; try discriminate Hi;
      injection Hi as <- <-;
      subst res; unfold Analysis.save_results, mbind, io_bind;
      rewrite mkdir_ok by exact Hdir; cbv beta iota zeta;
      rewrite ?write_ok by (simpl; first [apply Hq0|apply Hq1|apply Hq2]; lia);
      cbv beta iota zeta;
      rewrite write_fail by (simpl; exact Hp); simpl;
      (split; [reflexivity|]);
      (split; [rewrite <- ?app_assoc; reflexivity|]);
      (split; [intros j q c' Hj Hq; each_artifact j Hj Hq; read_disk|]);
      (split; [intros j q c' Hj Hq; each_artifact j Hj Hq; read_disk|]);
      intros j q c' Hj Hq; each_artifact j Hj Hq;
      rewrite !not_elem_of_cons; repeat split;
      try path_ne; apply not_elem_of_nil.
  - intros Hall.
    assert (Hq0 : output_dir +:+ "/" +:+ Analysis.subject_id self +:+ "_timeseries.npy"
                 ∉ faulty d)
      by exact (Hall 0%nat _ _ eq_refl).
    assert (Hq1 : output_dir +:+ "/" +:+ Analysis.subject_id self +:+ "_connectivity.npy"
                 ∉ faulty d)
      by exact (Hall 1%nat _ _ eq_refl).
    assert (Hq2 : output_dir +:+ "/" +:+ Analysis.subject_id self +:+ "_labels.txt"
                 ∉ faulty d)
      by exact (Hall 2%nat _ _ eq_refl).
    assert (Hq3 : output_dir +:+ "/" +:+ Analysis.subject_id self +:+ "_connectivity.csv"
                 ∉ faulty d)
      by exact (Hall 3%nat _ _ eq_refl).
    clear Hall.
    subst res. unfold Analysis.save_results, mbind, io_bind.
    rewrite mkdir_ok by exact Hdir. cbv beta iota zeta.
    rewrite write_ok by (simpl; exact Hq0). cbv beta iota zeta.
    rewrite write_ok by (simpl; exact Hq1). cbv beta iota zeta.
    rewrite write_ok by (simpl; exact Hq2). cbv beta iota zeta.
    rewrite write_ok by (simpl; exact Hq3). simpl.
    split; [reflexivity|]. split; [rewrite <- ?app_assoc; reflexivity|].
    intros j q c' Hq. destruct j as [|[|[|[|j]]]]; simpl in Hq;
      try discriminate Hq; injection Hq as <- <-; read_disk.
Qed.

End SaveResults.

(** C2, amended, on a disk on which only the labels file cannot be
    written: the call raises at the labels file, the time series written
    before it is on the disk and the connectivity table after it is
    not. *)
Lemma save_results_stops_at_first_failure_witness :
  (Analysis.save_results sub_01 timeseries_2 connectivity_2 labels_2
     "analysis_outputs" disk_labels_faulty).1 =
  Raise (OSError "analysis_outputs/sub-01_labels.txt") ∧
  files (Analysis.save_results sub_01 timeseries_2 connectivity_2 labels_2
           "analysis_outputs" disk_labels_faulty).2
    !! "analysis_outputs/sub-01_timeseries.npy" = Some (Npy timeseries_2) ∧
  files (Analysis.save_results sub_01 timeseries_2 connectivity_2 labels_2
           "analysis_outputs" disk_labels_faulty).2
    !! "analysis_outputs/sub-01_connectivity.csv" =
  files disk_labels_faulty !! "analysis_outputs/sub-01_connectivity.csv".
Proof.
  destruct (save_results_stops_at_first_failure sub_01 timeseries_2
              connectivity_2 labels_2 "analysis_outputs" disk_labels_faulty)
    as [Hfail _].
  { simpl. intros Hin. apply elem_of_singleton in Hin. discriminate Hin. }
  destruct (Hfail 2%nat "analysis_outputs/sub-01_labels.txt"
              (Text (Analysis.label_lines 0 labels_2)))
    as (Hres & _ & Hearlier & Hlater & _).
  { reflexivity. }
  { simpl. apply elem_of_singleton. reflexivity. }
  { intros j q c' Hj Hq. simpl.
    destruct j as [|[|j]]; [| |lia]; injection Hq as <- _;
      intros Hin; apply elem_of_singleton in Hin; discriminate Hin. }
  split; [exact Hres|]. split.
  - exact (Hearlier 0%nat _ _ (Nat.lt_0_succ 1) eq_refl).
  - exact (Hlater 3%nat _ _ (Nat.le_succ_diag_r 2) eq_refl).
Defined.

(** ** Further properties of the exclusion engine and of the summaries *)

Section SameExponent.
Variables (m1 m2 : positive) (e : Z).
Hypothesis Hm : (m1 < m2)%positive.

Let c1 : float64 := S754_finite false m1 e.
Let c2 : float64 := S754_finite false m2 e.

(** Below the smaller of two positive constants of one exponent is below
    the larger. *)
Lemma lt_constants (x : float64) : lt x c1 = true → lt x c2 = true.
Proof.
  unfold lt, SFltb, c1, c2.
  destruct x as [s|s| |s m k]; simpl; try congruence.
  destruct s; [reflexivity|].
  destruct (k ?= e)%Z; try congruence.
  rewrite !Pos.compare_cont_spec; simpl.
  destruct (m ?= m1)%positive eqn:Hc; try discriminate. intros _.
  apply Pos.compare_lt_iff in Hc.
  assert (Hlt : (m < m2)%positive) by (eapply Pos.lt_trans; eassumption).
  apply Pos.compare_lt_iff in Hlt. now rewrite Hlt.
Qed.

(** Above the larger is above the smaller. *)
Lemma gt_constants (x : float64) : gt x c2 = true → gt x c1 = true.
Proof.
  unfold gt, SFltb, c1, c2.
  destruct x as [s|s| |s m k]; simpl; try congruence.
  destruct s; [discriminate|].
  destruct (e ?= k)%Z; try congruence.
  rewrite !Pos.compare_cont_spec; simpl.
  destruct (m2 ?= m)%positive eqn:Hc; try discriminate. intros _.
  apply Pos.compare_lt_iff in Hc.
  assert (Hlt : (m1 < m)%positive) by (eapply Pos.lt_trans; eassumption).
  apply Pos.compare_lt_iff in Hlt. now rewrite Hlt.
Qed.

End SameExponent.

Lemma gt_0_9_gt_0_5 (x : float64) : gt x f0_9 = true → gt x f0_5 = true.
Proof. apply gt_constants. reflexivity. Qed.

Lemma lt_40_lt_50 (x : float64) : lt x f40 = true → lt x f50 = true.
Proof. apply lt_constants. reflexivity. Qed.

Lemma lt_8_lt_10 (x : float64) : lt x f8 = true → lt x f10 = true.
Proof. apply lt_constants. reflexivity. Qed.

(** A row is in one of the two motion selections exactly when its fd_mean
    is above 0.5. *)
Lemma motion_selected_iff (x : float64) :
  gt x f0_9 || (gt x f0_5 && le x f0_9) = gt x f0_5.
Proof.
  destruct (gt x f0_9) eqn:Hh; simpl.
  - symmetry. apply gt_0_9_gt_0_5, Hh.
  - destruct (gt x f0_5) eqn:Hm; [|reflexivity].
    simpl. apply (le_of_not_gt x f0_9 f0_5); [discriminate|exact Hm|exact Hh].
Qed.

Lemma motion_selections_length (bold_df : list (Bold.metrics float64)) :
  (length (QC.high_motion bold_df) + length (QC.mod_motion bold_df)
   ≤ length bold_df)%nat.
Proof.
  unfold QC.high_motion, QC.mod_motion.
  induction bold_df as [|r l IH]; simpl; [lia|].
  destruct (gt (Bold.fd_mean r) f0_9) eqn:Hh; simpl.
  - rewrite (gt_not_le _ _ Hh), andb_false_r. simpl. lia.
  - destruct (gt (Bold.fd_mean r) f0_5 && le (Bold.fd_mean r) f0_9);
      simpl; lia.
Qed.

(** The exclusion list has at most two entries per functional row (one
    for motion, one for tSNR) and one per anatomical row. *)
Theorem exclusion_list_length_bound
    (bold_df : option (list (Bold.metrics float64)))
    (t1w_df : option (list (T1w.metrics float64))) :
  (length (QC.create_exclusion_list bold_df t1w_df)
   ≤ 2 * length (default [] bold_df) + length (default [] t1w_df))%nat.
Proof.
  rewrite create_exclusion_list_unfold, length_app.
  assert (Hb : (length match bold_df with
                       | Some df =>
                           map QC.high_motion_entry (QC.high_motion df) ++
                           map QC.mod_motion_entry (QC.mod_motion df) ++
                           map QC.low_tsnr_entry (QC.low_tsnr df)
                       | None => []
                       end ≤ 2 * length (default [] bold_df))%nat).
  { destruct bold_df as [df|]; simpl; [|lia].
    rewrite !length_app, !length_map.
    pose proof (motion_selections_length df) as Hmotion.
    assert (Ht : (length (QC.low_tsnr df) ≤ length df)%nat)
      by apply List.filter_length_le.
    lia. }
  assert (Ht : (length match t1w_df with
                       | Some df => map QC.low_snr_entry (QC.low_snr df)
                       | None => []
                       end ≤ length (default [] t1w_df))%nat).
  { destruct t1w_df as [df|]; simpl; [|lia].
    rewrite length_map. apply List.filter_length_le. }
  lia.
Qed.

(** Every entry of the exclusion list has the severity "high" or
    "moderate" and carries the subject and session of a row of one of the
    two tables. *)
Theorem exclusion_entries_well_formed
    (bold_df : list (Bold.metrics float64))
    (t1w_df : list (T1w.metrics float64)) :
  Forall
    (fun entry =>
       (Entry.severity entry = "high" ∨ Entry.severity entry = "moderate") ∧
       ((∃ r, In r bold_df ∧ Entry.subject_id entry = Bold.subject_id r ∧
              Entry.session_id entry = Bold.session_id r) ∨
        (∃ a, In a t1w_df ∧ Entry.subject_id entry = T1w.subject_id a ∧
              Entry.session_id entry = T1w.session_id a)))
    (QC.create_exclusion_list (Some bold_df) (Some t1w_df)).
Proof.
  rewrite create_exclusion_list_unfold.
  unfold QC.high_motion, QC.mod_motion, QC.low_tsnr, QC.low_snr.
  rewrite !Forall_app.
  split; [split; [|split]|]; rewrite Forall_forall; intros entry Hin;
    apply list_elem_of_In, in_map_iff in Hin;
    destruct Hin as (row & <- & Hrow); apply filter_In in Hrow;
    destruct Hrow as [Hrow _]; simpl; (split; [auto|eauto 8]).
Qed.

(** No exclusion file is written exactly when no functional row has
    fd_mean above 0.5 or tsnr below 40 and no anatomical row has snr
    below 8. *)
Theorem no_exclusion_file_iff
    (bold_df : list (Bold.metrics float64))
    (t1w_df : list (T1w.metrics float64)) :
  QC.suggested_exclusions_csv
    (QC.create_exclusion_list (Some bold_df) (Some t1w_df)) = None ↔
  Forall (fun r => gt (Bold.fd_mean r) f0_5 = false ∧
                   lt (Bold.tsnr r) f40 = false) bold_df ∧
  Forall (fun a => lt (T1w.snr a) f8 = false) t1w_df.
Proof.
  assert (Hcsv : ∀ l, QC.suggested_exclusions_csv l = None ↔ l = [])
    by (intros []; simpl; split; congruence).
  rewrite Hcsv, create_exclusion_list_unfold.
  unfold QC.high_motion, QC.mod_motion, QC.low_tsnr, QC.low_snr.
  split.
  - intros Hnil.
    apply app_eq_nil in Hnil as [Hb Ht].
    apply app_eq_nil in Hb as [Hhigh Hb].
    apply app_eq_nil in Hb as [Hmod Htsnr].
    apply map_eq_nil in Hhigh, Hmod, Htsnr, Ht.
    split; rewrite Forall_forall; intros row Hin; apply list_elem_of_In in Hin.
    + split.
      * rewrite <- motion_selected_iff.
        destruct (gt (Bold.fd_mean row) f0_9) eqn:Hh.
        { assert (Hr : In row (List.filter (fun r => gt (Bold.fd_mean r) f0_9) bold_df))
            by (apply filter_In; auto).
          rewrite Hhigh in Hr. destruct Hr. }
        destruct (gt (Bold.fd_mean row) f0_5 && le (Bold.fd_mean row) f0_9)
          eqn:Hm; [|reflexivity].
        assert (Hr : In row (List.filter
                      (fun r => gt (Bold.fd_mean r) f0_5 &&
                                le (Bold.fd_mean r) f0_9) bold_df))
          by (apply filter_In; auto).
        rewrite Hmod in Hr. destruct Hr.
      * destruct (lt (Bold.tsnr row) f40) eqn:Hl; [|reflexivity].
        assert (Hr : In row (List.filter (fun r => lt (Bold.tsnr r) f40) bold_df))
          by (apply filter_In; auto).
        rewrite Htsnr in Hr. destruct Hr.
    + destruct (lt (T1w.snr row) f8) eqn:Hl; [|reflexivity].
      assert (Hr : In row (List.filter (fun a => lt (T1w.snr a) f8) t1w_df))
        by (apply filter_In; auto).
      rewrite Ht in Hr. destruct Hr.
  - intros [Hb Ht].
    assert (Hnone : ∀ {R} (p : R → bool) (l : list R),
               Forall (fun r => p r = false) l → List.filter p l = []).
    { intros R p l Hall. induction Hall as [|r l Hr _ IH]; simpl;
        [reflexivity|]. now rewrite Hr. }
    rewrite !Hnone; [reflexivity| | | |].
    + exact Ht.
    + eapply Forall_impl; [exact Hb|]. intros r [_ Hr]. exact Hr.
    + eapply Forall_impl; [exact Hb|]. intros r [Hr _].
      rewrite <- motion_selected_iff in Hr.
      apply orb_false_iff in Hr as [_ Hr]. exact Hr.
    + eapply Forall_impl; [exact Hb|]. intros r [Hr _].
      rewrite <- motion_selected_iff in Hr.
      apply orb_false_iff in Hr as [Hr _]. exact Hr.
Qed.

(** The rows that the functional summary flags for high motion are the
    rows of the two motion selections of the exclusion engine taken
    together. *)
Theorem summary_motion_flags_are_exclusion_rows
    (df : list (Bold.metrics float64)) :
  QC.bold_high_motion (QC.generate_bold_summary df) ≡ₚ
  QC.high_motion df ++ QC.mod_motion df.
Proof.
  unfold QC.generate_bold_summary, QC.high_motion, QC.mod_motion; simpl.
  induction df as [|r l IH]; simpl; [reflexivity|].
  destruct (gt (Bold.fd_mean r) f0_9) eqn:Hh.
  - rewrite (gt_0_9_gt_0_5 _ Hh), (gt_not_le _ _ Hh). simpl.
    apply Permutation_cons; [reflexivity|exact IH].
  - destruct (gt (Bold.fd_mean r) f0_5) eqn:Hm; simpl; [|exact IH].
    rewrite (le_of_not_gt _ f0_9 f0_5); [|discriminate|exact Hm|exact Hh].
    rewrite IH. apply Permutation_middle.
Qed.

Lemma filter_sublist_of_implied {R : Type} (p q : R → bool) (l : list R) :
  (∀ r, p r = true → q r = true) →
  List.filter p l `sublist_of` List.filter q l.
Proof.
  intros Hpq. induction l as [|r l IH]; simpl; [constructor|].
  destruct (p r) eqn:Hp.
  - rewrite (Hpq r Hp). now constructor.
  - destruct (q r); [now constructor|exact IH].
Qed.

(** Every row that the exclusion engine selects for low tSNR (or low
    anatomical SNR) is among the rows that the summary of its table flags,
    in the same order. *)
Theorem exclusion_rows_are_flagged
    (bold_df : list (Bold.metrics float64))
    (t1w_df : list (T1w.metrics float64)) :
  QC.low_tsnr bold_df `sublist_of`
    QC.bold_low_tsnr (QC.generate_bold_summary bold_df) ∧
  QC.low_snr t1w_df `sublist_of`
    QC.t1w_low_snr (QC.generate_t1w_summary t1w_df) ∧
  QC.high_motion bold_df `sublist_of`
    QC.bold_high_motion (QC.generate_bold_summary bold_df) ∧
  QC.mod_motion bold_df `sublist_of`
    QC.bold_high_motion (QC.generate_bold_summary bold_df).
Proof.
  unfold QC.generate_bold_summary, QC.generate_t1w_summary, QC.low_tsnr,
    QC.low_snr, QC.high_motion, QC.mod_motion; simpl.
  repeat split; apply filter_sublist_of_implied; intros r Hr.
  - apply lt_40_lt_50, Hr.
  - apply lt_8_lt_10, Hr.
  - apply gt_0_9_gt_0_5, Hr.
  - apply andb_true_iff in Hr as [Hr _]. exact Hr.
Qed.

(** ** Further properties of the metric loaders *)

Lemma is_metric_file_false (data : json) :
  is_metric_file data = false →
  QC.bold_record data = Raise AttributeError ∧
  QC.t1w_record data = Raise AttributeError.
Proof.
  unfold is_metric_file, QC.bold_record, QC.t1w_record. run_outcome.
  destruct data as [| | | | |d]; try (intros _; split; reflexivity).
  destruct (d !! "bids_meta") as [[]|]; try discriminate;
    intros _; split; reflexivity.
Qed.

Lemma is_metric_file_true (data : json) :
  is_metric_file data = true → metric_file data.
Proof.
  unfold is_metric_file, metric_file, bids_meta.
  destruct data as [| | | | |d]; try discriminate.
  destruct (d !! "bids_meta") as [[]|] eqn:Hd; try discriminate;
    intros _; eexists d, _; rewrite Hd; split; reflexivity.
Qed.

Lemma load_loop_raises {R : Type} (record : json → outcome R)
    (files : list json) (e : exn) :
  Forall (fun data => (∃ r, record data = Ok r) ∨ record data = Raise e) files →
  Exists (fun data => record data = Raise e) files →
  ∀ metrics_list, QC.load_loop record files metrics_list = Raise e.
Proof.
  induction 1 as [|data files Hdata _ IH]; intros Hex metrics_list.
  - inversion Hex.
  - simpl. destruct Hdata as [[r Hr]|Hr]; rewrite Hr; run_outcome;
      [|reflexivity].
    apply IH. inversion Hex as [? ? Hbad|]; subst; [congruence|assumption].
Qed.

(** One file that is not a metric file (its top level is not an object, or
    its bids_meta is not an object) makes each loader raise AttributeError,
    wherever the file is in the list: no record is returned for any
    file. *)
Theorem loaders_raise_on_malformed_file (files : list json) :
  forallb is_metric_file files = false →
  QC.load_bold_metrics files = Raise AttributeError ∧
  QC.load_t1w_metrics files = Raise AttributeError.
Proof.
  intros Hbad.
  assert (Hex : Exists (fun data => is_metric_file data = false) files).
  { induction files as [|data files IH]; simpl in Hbad; [discriminate|].
    destruct (is_metric_file data) eqn:Hd; [right; apply IH, Hbad|left; exact Hd]. }
  assert (Hall : ∀ data, (∃ r, QC.bold_record data = Ok r) ∨
                         QC.bold_record data = Raise AttributeError).
  { intros data. destruct (is_metric_file data) eqn:Hd.
    - left. apply is_metric_file_true in Hd as (d & meta & -> & Hmeta).
      eexists. apply bold_record_ok, Hmeta.
    - right. apply is_metric_file_false, Hd. }
  assert (Hall' : ∀ data, (∃ r, QC.t1w_record data = Ok r) ∨
                          QC.t1w_record data = Raise AttributeError).
  { intros data. destruct (is_metric_file data) eqn:Hd.
    - left. apply is_metric_file_true in Hd as (d & meta & -> & Hmeta).
      eexists. apply t1w_record_ok, Hmeta.
    - right. apply is_metric_file_false, Hd. }
  unfold QC.load_bold_metrics, QC.load_t1w_metrics.
  destruct files as [|data files]; [discriminate|].
  split.
  - rewrite (load_loop_raises QC.bold_record (data :: files) AttributeError);
      [reflexivity|apply Forall_forall; intros; apply Hall|].
    eapply Exists_impl; [exact Hex|]. intros x Hx. apply is_metric_file_false, Hx.
  - rewrite (load_loop_raises QC.t1w_record (data :: files) AttributeError);
      [reflexivity|apply Forall_forall; intros; apply Hall'|].
    eapply Exists_impl; [exact Hex|]. intros x Hx. apply is_metric_file_false, Hx.
Qed.

Lemma loaders_raise_on_malformed_file_witness :
  QC.load_bold_metrics [JObj bold_file_full; JObj file_meta_null; JArr []] =
    Raise AttributeError ∧
  QC.load_t1w_metrics [JObj bold_file_full; JObj file_meta_null; JArr []] =
    Raise AttributeError.
Proof.
  apply (loaders_raise_on_malformed_file
           [JObj bold_file_full; JObj file_meta_null; JArr []]).
  vm_compute. reflexivity.
Defined.

(** The record of a file depends on the keys that the loader reads and on
    no other: two objects that agree on these keys give the same record
    (or the same exception). *)
Theorem records_depend_on_read_keys_only (d d' : gmap string json) :
  ((∀ k, k ∈ bold_keys → d !! k = d' !! k) →
   QC.bold_record (JObj d) = QC.bold_record (JObj d')) ∧
  ((∀ k, k ∈ t1w_keys → d !! k = d' !! k) →
   QC.t1w_record (JObj d) = QC.t1w_record (JObj d')).
Proof.
  split; intros Hkeys; unfold QC.bold_record, QC.t1w_record; run_outcome;
    repeat match goal with
           | |- context [d !! ?k] =>
               rewrite (Hkeys k) by (unfold bold_keys, t1w_keys; set_solver)
           end; reflexivity.
Qed.

Lemma records_depend_on_read_keys_only_witness :
  QC.bold_record (JObj bold_file_full_provenance) =
  QC.bold_record (JObj bold_file_full) ∧
  QC.t1w_record (JObj bold_file_full_provenance) =
  QC.t1w_record (JObj bold_file_full).
Proof.
  destruct (records_depend_on_read_keys_only bold_file_full_provenance
              bold_file_full) as [Hbold Ht1w].
  split; [apply Hbold|apply Ht1w]; intros k Hk;
    unfold bold_file_full_provenance; apply lookup_insert_ne;
    intros <-; unfold bold_keys, t1w_keys in Hk;
    repeat (apply elem_of_cons in Hk as [Hk|Hk]; [discriminate Hk|]);
    apply elem_of_nil in Hk; exact Hk.
Defined.

(** What a metric file holds is what its record holds: each identifier
    of bids_meta and each metric that is present is copied as it is. *)
Theorem present_values_are_copied (d meta : gmap string json) :
  bids_meta d = Some meta →
  (∃ r, QC.bold_record (JObj d) = Ok r ∧ bold_present_is_copied d meta r) ∧
  (∃ r, QC.t1w_record (JObj d) = Ok r ∧ t1w_present_is_copied d meta r).
Proof.
  intros Hmeta. split; eexists;
    (split; [first [apply (bold_record_ok d meta Hmeta)
                   |apply (t1w_record_ok d meta Hmeta)]|]);
    unfold bold_present_is_copied, t1w_present_is_copied; simpl;
    repeat split; intros v Hv; rewrite Hv; reflexivity.
Qed.

Lemma present_values_are_copied_witness :
  (∃ r, QC.bold_record (JObj bold_file_full) = Ok r ∧
        bold_present_is_copied bold_file_full
          {[ "subject_id" := JStr "01"; "session_id" := JStr "01";
             "task_id" := JStr "rest" ]} r) ∧
  (∃ r, QC.t1w_record (JObj bold_file_full) = Ok r ∧
        t1w_present_is_copied bold_file_full
          {[ "subject_id" := JStr "01"; "session_id" := JStr "01";
             "task_id" := JStr "rest" ]} r).
Proof.
  apply (present_values_are_copied bold_file_full). vm_compute. reflexivity.
Defined.

(** ** Further properties of the input locator *)

Lemma fnmatch_nil (s : string) : Analysis.fnmatch "" s = true ↔ s = "".
Proof. destruct s; simpl; split; congruence. Qed.

Lemma fnmatch_star_cons (p : string) (c : ascii) (s : string) :
  Analysis.fnmatch (String "*" p) (String c s) =
  Analysis.fnmatch p (String c s) || Analysis.fnmatch (String "*" p) s.
Proof. reflexivity. Qed.

Lemma fnmatch_star_nil (p : string) :
  Analysis.fnmatch (String "*" p) "" = Analysis.fnmatch p "" || false.
Proof. reflexivity. Qed.

(** [*] stands for any run of characters. *)
Lemma fnmatch_star (p s : string) :
  Analysis.fnmatch (String "*" p) s = true ↔
  ∃ a b, s = a +:+ b ∧ Analysis.fnmatch p b = true.
Proof.
  induction s as [|c s IH].
  - rewrite fnmatch_star_nil, orb_false_r. split.
    + intros Hp. exists "", "". split; [reflexivity|exact Hp].
    + intros (a & b & Hab & Hp). destruct a; [|discriminate].
      change ("" = b) in Hab. subst b. exact Hp.
  - rewrite fnmatch_star_cons, orb_true_iff, IH. split.
    + intros [Hp|(a & b & -> & Hp)].
      * exists "", (String c s). split; [reflexivity|exact Hp].
      * exists (String c a), b. split; [reflexivity|exact Hp].
    + intros (a & b & Hab & Hp). destruct a as [|c' a].
      * change (String c s = b) in Hab. subst b. left. exact Hp.
      * change (String c s = String c' (a +:+ b)) in Hab.
        injection Hab as -> ->. right. exists a, b.
        split; [reflexivity|exact Hp].
Qed.

Lemma fnmatch_char (c : ascii) (p s : string) :
  c ≠ "*"%char →
  Analysis.fnmatch (String c p) s =
  match s with
  | EmptyString => false
  | String d rest => Ascii.eqb c d && Analysis.fnmatch p rest
  end.
Proof.
  intros Hc.
  destruct c as [[] [] [] [] [] [] [] []]; try reflexivity.
  contradiction Hc. reflexivity.
Qed.

Lemma star_free_cons (c : ascii) (p : string) :
  star_free (String c p) = true → c ≠ "*"%char ∧ star_free p = true.
Proof.
  destruct c as [[] [] [] [] [] [] [] []]; simpl; intros Hp;
    (split; [discriminate|exact Hp]) || discriminate Hp.
Qed.

(** A run of ordinary characters stands for itself. *)
Lemma fnmatch_literal (lit p s : string) :
  star_free lit = true →
  (Analysis.fnmatch (lit +:+ p) s = true ↔
   ∃ b, s = lit +:+ b ∧ Analysis.fnmatch p b = true).
Proof.
  revert s. induction lit as [|c lit IH]; intros s Hlit.
  - change ("" +:+ p) with p.
    split; [intros Hp; exists s; auto|intros (b & -> & Hp); exact Hp].
  - apply star_free_cons in Hlit as [Hc Hlit].
    change (String c lit +:+ p) with (String c (lit +:+ p)).
    rewrite (fnmatch_char c _ s Hc). destruct s as [|d s].
    + split; [discriminate|intros (b & Hb & _); discriminate].
    + rewrite andb_true_iff, (IH s Hlit). split.
      * intros [Hcd (b & -> & Hp)]. apply Ascii.eqb_eq in Hcd as ->.
        exists b. split; [reflexivity|exact Hp].
      * intros (b & Hb & Hp).
        change (String d s = String c (lit +:+ b)) in Hb.
        injection Hb as -> ->. split; [apply Ascii.eqb_refl|].
        exists b. split; [reflexivity|exact Hp].
Qed.

Lemma append_nil_r (s : string) : s +:+ "" = s.
Proof.
  induction s as [|c s IH]; [reflexivity|].
  change (String c s +:+ "") with (String c (s +:+ "")). now rewrite IH.
Qed.

Lemma fnmatch_star_suffix (suffix s : string) :
  star_free suffix = true →
  (Analysis.fnmatch (String "*" (suffix +:+ "")) s = true ↔
   ∃ a, s = a +:+ suffix).
Proof.
  intros Hsuf. rewrite fnmatch_star. split.
  - intros (a & b & -> & Hb). apply (fnmatch_literal suffix "" b Hsuf) in Hb.
    destruct Hb as (b' & -> & Hnil). apply fnmatch_nil in Hnil as ->.
    exists a. now rewrite append_nil_r.
  - intros (a & ->). exists a, suffix. split; [reflexivity|].
    apply (fnmatch_literal suffix "" suffix Hsuf).
    exists "". split; [now rewrite append_nil_r|reflexivity].
Qed.

Lemma fnmatch_star_infix_suffix (infix suffix s : string) :
  star_free infix = true → star_free suffix = true →
  (Analysis.fnmatch (String "*" (infix +:+ String "*" (suffix +:+ ""))) s = true ↔
   ∃ a b, s = a +:+ infix +:+ b +:+ suffix).
Proof.
  intros Hin Hsuf. rewrite fnmatch_star. split.
  - intros (a & r & -> & Hr).
    apply (fnmatch_literal infix _ r Hin) in Hr as (r' & -> & Hr').
    apply (fnmatch_star_suffix suffix r' Hsuf) in Hr' as (b & ->).
    exists a, b. reflexivity.
  - intros (a & b & ->). exists a, (infix +:+ b +:+ suffix).
    split; [reflexivity|].
    apply (fnmatch_literal infix _ _ Hin). exists (b +:+ suffix).
    split; [reflexivity|].
    apply (fnmatch_star_suffix suffix _ Hsuf). exists b. reflexivity.
Qed.

(** The names that the locator accepts: a confounds table is a name that
    ends with _desc-confounds_timeseries.tsv; a functional scan (a brain
    mask) is a name with _space-MNI somewhere before its ending
    _desc-preproc_bold.nii.gz (_desc-brain_mask.nii.gz). *)
Theorem locator_accepted_names (name : string) :
  (Analysis.fnmatch "*_desc-confounds_timeseries.tsv" name = true ↔
   ∃ a, name = a +:+ "_desc-confounds_timeseries.tsv") ∧
  (Analysis.fnmatch "*_space-MNI*_desc-preproc_bold.nii.gz" name = true ↔
   ∃ a b, name = a +:+ "_space-MNI" +:+ b +:+ "_desc-preproc_bold.nii.gz") ∧
  (Analysis.fnmatch "*_space-MNI*_desc-brain_mask.nii.gz" name = true ↔
   ∃ a b, name = a +:+ "_space-MNI" +:+ b +:+ "_desc-brain_mask.nii.gz").
Proof.
  split; [|split].
  - apply (fnmatch_star_suffix "_desc-confounds_timeseries.tsv"). reflexivity.
  - apply (fnmatch_star_infix_suffix "_space-MNI" "_desc-preproc_bold.nii.gz");
      reflexivity.
  - apply (fnmatch_star_infix_suffix "_space-MNI" "_desc-brain_mask.nii.gz");
      reflexivity.
Qed.

(** [__init__] fails only for want of a mandatory file, with
    FileNotFoundError and the directory searched in the message: for the
    functional scan first, for the confounds table next; a missing mask
    is no failure. *)
Theorem init_fails_on_missing_input
    (listing : list string) (fmriprep_dir subject_id session_id : string) :
  let subject_dir :=
    fmriprep_dir +:+ "/" +:+ subject_id +:+ "/" +:+ session_id +:+ "/" +:+ "func" in
  let bold_files :=
    Analysis.glob subject_dir listing "*_space-MNI*_desc-preproc_bold.nii.gz" in
  let confounds_files :=
    Analysis.glob subject_dir listing "*_desc-confounds_timeseries.tsv" in
  let result := Analysis.init listing fmriprep_dir subject_id session_id in
  (bold_files = [] →
   result = Raise (FileNotFoundError
                     ("No preprocessed BOLD files found in " +:+ subject_dir))) ∧
  (bold_files ≠ [] → confounds_files = [] →
   result = Raise (FileNotFoundError
                     ("No confounds file found in " +:+ subject_dir))) ∧
  ((∃ self, result = Ok self) ↔ bold_files ≠ [] ∧ confounds_files ≠ []) ∧
  (∀ e, result = Raise e → ∃ msg, e = FileNotFoundError msg).
Proof.
  intros subject_dir bold_files confounds_files result.
  unfold result, Analysis.init. fold subject_dir. fold bold_files.
  fold confounds_files.
  destruct bold_files as [|b bs]; [|destruct confounds_files as [|c cs]].
  - split; [reflexivity|]. split; [congruence|]. split.
    + split; [intros [self Hself]; discriminate Hself|intros [Hb _]; congruence].
    + intros e [= <-]. eauto.
  - split; [discriminate|]. split; [reflexivity|]. split.
    + split; [intros [self Hself]; discriminate Hself|intros [_ Hc]; congruence].
    + intros e [= <-]. eauto.
  - split; [discriminate|]. split; [congruence|]. split.
    + split; [intros _; split; discriminate|intros _; eauto].
    + discriminate.
Qed.

Lemma init_fails_on_missing_input_witness :
  Analysis.init [] "derivatives/fmriprep" "sub-01" "ses-01" =
  Raise (FileNotFoundError
           "No preprocessed BOLD files found in derivatives/fmriprep/sub-01/ses-01/func") ∧
  Analysis.init listing_no_confounds "derivatives/fmriprep" "sub-01" "ses-01" =
  Raise (FileNotFoundError
           "No confounds file found in derivatives/fmriprep/sub-01/ses-01/func").
Proof.
  split.
  - apply (init_fails_on_missing_input [] "derivatives/fmriprep" "sub-01"
             "ses-01"). reflexivity.
  - apply (init_fails_on_missing_input listing_no_confounds
             "derivatives/fmriprep" "sub-01" "ses-01");
      [vm_compute; discriminate|reflexivity].
Defined.

(** ** Further properties of the parcellation reducer *)

(** [extract_roi_timeseries] gives a result exactly when the import, the
    fetch of the chosen atlas and the reduction all succeed; the result is
    then the time series of the reduction with the labels of that atlas.
    Any failure among the three gives the null pair. *)
Theorem roi_result_iff_library_calls_succeed `{Nilearn}
    (cleaned_img : image) (timeseries : ndarray) (region_labels : list string) :
  (Analysis.extract_roi_timeseries cleaned_img "aal" =
     Some (timeseries, region_labels) ↔
   import_datasets = Ok tt ∧
   ∃ atlas, fetch_atlas_aal = Ok atlas ∧
            masker_fit_transform (maps atlas) cleaned_img = Ok timeseries ∧
            region_labels = labels atlas) ∧
  (Analysis.extract_roi_timeseries cleaned_img "harvard_oxford" =
     Some (timeseries, region_labels) ↔
   import_datasets = Ok tt ∧
   ∃ atlas, fetch_atlas_harvard_oxford "cort-maxprob-thr25-2mm" = Ok atlas ∧
            masker_fit_transform (maps atlas) cleaned_img = Ok timeseries ∧
            region_labels = labels atlas).
Proof.
  unfold Analysis.extract_roi_timeseries.
  change ("aal" =? "aal")%string with true.
  change ("harvard_oxford" =? "aal")%string with false.
  change ("harvard_oxford" =? "harvard_oxford")%string with true.
  cbv beta iota.
  split.
  - destruct import_datasets as [[]|e0]; run_outcome;
      [|split; [discriminate|intros [Hi _]; discriminate Hi]].
    destruct fetch_atlas_aal as [atlas|e1]; simpl;
      [|split; [discriminate|intros (_ & a & Ha & _); discriminate Ha]].
    destruct (masker_fit_transform (maps atlas) cleaned_img) as [ts|e2] eqn:Hfit;
      simpl.
    + split.
      * intros [= <- <-]. split; [reflexivity|]. exists atlas. auto.
      * intros (_ & a & [= <-] & Hts & ->). rewrite Hfit in Hts.
        injection Hts as <-. reflexivity.
    + split; [discriminate|].
      intros (_ & a & [= <-] & Hts & _). rewrite Hfit in Hts. discriminate Hts.
  - destruct import_datasets as [[]|e0]; run_outcome;
      [|split; [discriminate|intros [Hi _]; discriminate Hi]].
    destruct (fetch_atlas_harvard_oxford "cort-maxprob-thr25-2mm")
      as [atlas|e1]; simpl;
      [|split; [discriminate|intros (_ & a & Ha & _); discriminate Ha]].
    destruct (masker_fit_transform (maps atlas) cleaned_img) as [ts|e2] eqn:Hfit;
      simpl.
    + split.
      * intros [= <- <-]. split; [reflexivity|]. exists atlas. auto.
      * intros (_ & a & [= <-] & Hts & ->). rewrite Hfit in Hts.
        injection Hts as <-. reflexivity.
    + split; [discriminate|].
      intros (_ & a & [= <-] & Hts & _). rewrite Hfit in Hts. discriminate Hts.
Qed.

(** ** Further properties of the artifact writer *)

Lemma mkdir_fail (path : string) (d : disk) :
  path ∈ faulty d →
  Analysis.mkdir path d =
  (Raise (OSError path),
   Disk (files d) (dirs d) (faulty d) (attempted d ++ [path])).
Proof.
  intros Hp. unfold Analysis.mkdir; simpl. now rewrite decide_True.
Qed.

(** The run of [save_results] on any disk, one case per place where it
    can stop. *)
Ltac save_results_cases d :=
  unfold Analysis.save_results, mbind, io_bind, mret, io_ret;
  match goal with
  | |- context [Analysis.mkdir ?p ?d0] =>
      destruct (decide (p ∈ faulty d));
      [rewrite (mkdir_fail p d0) by (simpl; assumption)
      |rewrite (mkdir_ok p d0) by (simpl; assumption)]
  end;
  cbv beta iota zeta;
  repeat match goal with
         | |- context [Analysis.write ?p ?c ?d0] =>
             destruct (decide (p ∈ faulty d));
             [rewrite (write_fail p c d0) by (simpl; assumption)
             |rewrite (write_ok p c d0) by (simpl; assumption)];
             cbv beta iota zeta
         end;
  cbn [fst snd files dirs faulty attempted].

Lemma save_results_frame (self : Analysis.t)
    (timeseries connectivity_matrix : ndarray) (labels : list string)
    (output_dir : string) (d : disk) :
  let res :=
    Analysis.save_results self timeseries connectivity_matrix labels
      output_dir d in
  faulty res.2 = faulty d ∧
  ∀ q, q ∉ artifact_paths self output_dir → files res.2 !! q = files d !! q.
Proof.
  save_results_cases d; (split; [reflexivity|]); intros q Hq;
    rewrite ?lookup_insert_ne
      by (intros <-; apply Hq; unfold artifact_paths; set_solver);
    reflexivity.
Qed.

(** Whatever fails, [save_results] changes no file other than the four
    artifacts of the subject: every other path reads as before, every
    file on the disk afterwards is a file that was there or an artifact
    with its content, and the set of faulty paths and the directories that
    were there are kept. *)
Theorem save_results_touches_only_artifacts (self : Analysis.t)
    (timeseries connectivity_matrix : ndarray) (labels : list string)
    (output_dir : string) (d : disk) :
  let res :=
    Analysis.save_results self timeseries connectivity_matrix labels
      output_dir d in
  faulty res.2 = faulty d ∧
  dirs d ⊆ dirs res.2 ∧
  (∀ q, q ∉ artifact_paths self output_dir →
        files res.2 !! q = files d !! q) ∧
  (∀ q c, files res.2 !! q = Some c →
          files d !! q = Some c ∨
          (q, c) ∈ artifacts self timeseries connectivity_matrix labels
                     output_dir).
Proof.
  intros res.
  split; [apply save_results_frame|].
  split; [|split; [apply save_results_frame|]].
  - subst res. save_results_cases d; set_solver.
  - subst res. save_results_cases d; intros q c Hq;
      rewrite ?lookup_insert_Some in Hq; unfold artifacts; set_solver.
Qed.




(** ** Further properties of the pipeline and of the entry point *)

Section PipelineFacts.
Context `{Nilearn}.




(** [main] returns normally whatever happens; when the derivatives
    directory is absent, or a mandatory input of the subject is missing,
    it leaves the disk as it was. *)
Theorem main_always_returns (dir_exists : bool) (listing : list string)
    (d : disk) :
  (Example.main dir_exists listing d).1 = Ok tt ∧
  (dir_exists = false → (Example.main dir_exists listing d).2 = d) ∧
  (∀ e, Analysis.init listing "derivatives/fmriprep" "sub-01" "ses-01" =
          Raise e →
        (Example.main dir_exists listing d).2 = d).
Proof.
  unfold Example.main.
  destruct dir_exists; simpl; [|repeat split].
  destruct (Analysis.init listing "derivatives/fmriprep" "sub-01" "ses-01")
    as [self|e0].
  - destruct (Analysis.run_complete_analysis self d) as [[r|e1] d'];
      simpl; repeat split; discriminate.
  - simpl. repeat split.
Qed.

End PipelineFacts.



Lemma main_always_returns_witness :
  (@Example.main nilearn_ok false listing_two_runs disk_empty).2 = disk_empty ∧
  (@Example.main nilearn_ok true listing_no_confounds disk_empty).2 =
    disk_empty.
Proof.
  split.
  - apply (@main_always_returns nilearn_ok false listing_two_runs disk_empty).
    reflexivity.
  - apply (proj2 (proj2 (@main_always_returns nilearn_ok true
                           listing_no_confounds disk_empty))
             (FileNotFoundError
                "No confounds file found in derivatives/fmriprep/sub-01/ses-01/func")).
    reflexivity.
Defined.

(** ** A further property of the confound selector *)

Lemma filter_idem {A : Type} (P : A → Prop) `{∀ x, Decision (P x)}
    (l : list A) :
  filter P (filter P l) = filter P l.
Proof.
  induction l as [|x l IH]; [reflexivity|].
  rewrite filter_cons. destruct (decide (P x)) as [Hx|Hx]; [|exact IH].
  rewrite filter_cons, decide_True by exact Hx. now rewrite IH.
Qed.

(** Requesting the names that a request selected selects them again, and
    gives the same array. *)
Theorem load_confounds_of_selection (df : Frame.t)
    (names : option (list string)) :
  let selected :=
    Analysis.available_confounds df
      (default Analysis.default_confounds names) in
  Analysis.available_confounds df selected = selected ∧
  Analysis.load_confounds df (Some selected) = Analysis.load_confounds df names.
Proof.
  intros selected.
  assert (Hsel : Analysis.available_confounds df selected = selected)
    by apply filter_idem.
  split; [exact Hsel|].
  rewrite !load_confounds_unfold. simpl default. fold selected.
  rewrite Hsel. reflexivity.
Qed.

(** ** Properties of the QC pipeline *)

Lemma load_loop_map {R : Type} (record : json → outcome R) (f : json → R)
    (files : list json) :
  Forall (fun data => record data = Ok (f data)) files →
  ∀ metrics_list,
    QC.load_loop record files metrics_list = Ok (metrics_list ++ map f files).
Proof.
  induction 1 as [|data files Hdata _ IH]; intros metrics_list; simpl.
  - now rewrite app_nil_r.
  - rewrite Hdata. run_outcome. rewrite IH, <- app_assoc. reflexivity.
Qed.

Lemma cell_number (d : gmap string json) (k : string) :
  (∀ v, d !! k = Some v → ∃ x, v = JNum x) →
  default (JNum nan) (d !! k) = JNum (number (default (JNum nan) (d !! k))).
Proof.
  intros Hnum. destruct (d !! k) as [v|]; [|reflexivity].
  destruct (Hnum v eq_refl) as [x ->]. reflexivity.
Qed.

Lemma bold_record_numeric (data : json) :
  numeric_metric_file bold_metric_names data →
  QC.bold_record data = Ok (bold_cells (bold_row_of_file data)).
Proof.
  intros (d & meta & -> & Hmeta & Hnum).
  rewrite (bold_record_ok d meta Hmeta).
  unfold bold_cells, bold_row_of_file, bold_row_of. rewrite Hmeta. simpl.
  f_equal. f_equal; apply cell_number; intros v Hv;
    (eapply Hnum; [|exact Hv]); unfold bold_metric_names;
    repeat first [apply list_elem_of_here|apply list_elem_of_further].
Qed.

Lemma t1w_record_numeric (data : json) :
  numeric_metric_file t1w_metric_names data →
  QC.t1w_record data = Ok (t1w_cells (t1w_row_of_file data)).
Proof.
  intros (d & meta & -> & Hmeta & Hnum).
  rewrite (t1w_record_ok d meta Hmeta).
  unfold t1w_cells, t1w_row_of_file, t1w_row_of. rewrite Hmeta. simpl.
  f_equal. f_equal; apply cell_number; intros v Hv;
    (eapply Hnum; [|exact Hv]); unfold t1w_metric_names;
    repeat first [apply list_elem_of_here|apply list_elem_of_further].
Qed.

Lemma load_bold_metrics_numeric (files : list json) :
  Forall (numeric_metric_file bold_metric_names) files →
  QC.load_bold_metrics files =
  Ok (table_of (fun data => bold_cells (bold_row_of_file data)) files).
Proof.
  intros Hfiles. unfold QC.load_bold_metrics, table_of.
  destruct files as [|data files]; [reflexivity|].
  rewrite (load_loop_map QC.bold_record
             (fun data => bold_cells (bold_row_of_file data))).
  - reflexivity.
  - eapply Forall_impl; [exact Hfiles|]. apply bold_record_numeric.
Qed.

Lemma load_t1w_metrics_numeric (files : list json) :
  Forall (numeric_metric_file t1w_metric_names) files →
  QC.load_t1w_metrics files =
  Ok (table_of (fun data => t1w_cells (t1w_row_of_file data)) files).
Proof.
  intros Hfiles. unfold QC.load_t1w_metrics, table_of.
  destruct files as [|data files]; [reflexivity|].
  rewrite (load_loop_map QC.t1w_record
             (fun data => t1w_cells (t1w_row_of_file data))).
  - reflexivity.
  - eapply Forall_impl; [exact Hfiles|]. apply t1w_record_numeric.
Qed.

Section RunFacts.
Context `{Pandas}.
Hypothesis Hframe : frame_keeps_floats.

Lemma frames_of_numeric_files (bold_files t1w_files : list json) :
  bold_frame <$> table_of (fun data => bold_cells (bold_row_of_file data))
                   bold_files = table_of bold_row_of_file bold_files ∧
  t1w_frame <$> table_of (fun data => t1w_cells (t1w_row_of_file data))
                  t1w_files = table_of t1w_row_of_file t1w_files.
Proof.
  destruct Hframe as [Hb Ht]. unfold table_of.
  split.
  - destruct bold_files as [|data files]; [reflexivity|]. simpl. f_equal.
    rewrite <- (Hb (bold_row_of_file data :: map bold_row_of_file files)).
    simpl. now rewrite map_map.
  - destruct t1w_files as [|data files]; [reflexivity|]. simpl. f_equal.
    rewrite <- (Ht (t1w_row_of_file data :: map t1w_row_of_file files)).
    simpl. now rewrite map_map.
Qed.

(** On metric files whose metrics are numbers, a run of the QC pipeline
    saves, for each modality that has files, the table with one row per
    file (the identifiers of the file or "unknown", its metrics or nan),
    and saves as exclusion list what [create_exclusion_list] gives on
    these two tables; a modality without files has no summary, and no
    file at all gives no report. *)
Theorem run_reports_tables_of_files (bold_files t1w_files : list json) :
  Forall (numeric_metric_file bold_metric_names) bold_files →
  Forall (numeric_metric_file t1w_metric_names) t1w_files →
  let bold_df := table_of bold_row_of_file bold_files in
  let t1w_df := table_of t1w_row_of_file t1w_files in
  QCRun.run bold_files t1w_files =
  Ok (Report.Make bold_df t1w_df
        (QC.suggested_exclusions_csv
           (QC.create_exclusion_list bold_df t1w_df))).
Proof.
  intros Hbold Ht1w bold_df t1w_df. unfold QCRun.run.
  rewrite (load_bold_metrics_numeric _ Hbold).
  rewrite (load_t1w_metrics_numeric _ Ht1w). run_outcome.
  destruct (frames_of_numeric_files bold_files t1w_files) as [-> ->].
  fold bold_df. fold t1w_df.
  destruct bold_df as [b|], t1w_df as [t|]; reflexivity.
Qed.

(** Metric files that carry no fd_mean, no tsnr and no snr_total lead to
    no exclusion list, whatever their other metrics: the loaders put nan
    in their place and nan triggers no rule. *)
Theorem run_without_metrics_suggests_no_exclusion
    (bold_files t1w_files : list json) :
  Forall (numeric_metric_file bold_metric_names) bold_files →
  Forall (numeric_metric_file t1w_metric_names) t1w_files →
  Forall (fun data => ∀ d, data = JObj d →
                           d !! "fd_mean" = None ∧ d !! "tsnr" = None)
    bold_files →
  Forall (fun data => ∀ d, data = JObj d → d !! "snr_total" = None)
    t1w_files →
  ∃ report, QCRun.run bold_files t1w_files = Ok report ∧
            Report.suggested_exclusions report = None.
Proof.
  intros Hbold Ht1w Hnb Hnt. unfold QCRun.run.
  rewrite (load_bold_metrics_numeric _ Hbold).
  rewrite (load_t1w_metrics_numeric _ Ht1w). run_outcome.
  destruct (frames_of_numeric_files bold_files t1w_files) as [-> ->].
  assert (Hrows : ∀ bold_df t1w_df,
            bold_df = table_of bold_row_of_file bold_files →
            t1w_df = table_of t1w_row_of_file t1w_files →
            QC.create_exclusion_list bold_df t1w_df = []).
  { intros bold_df t1w_df -> ->. rewrite create_exclusion_list_unfold.
    assert (Hb : ∀ p : Bold.metrics float64 → bool,
              (∀ r, Bold.fd_mean r = nan → Bold.tsnr r = nan → p r = false) →
              List.filter p (map bold_row_of_file bold_files) = []).
    { intros p Hp. clear Hbold. induction Hnb as [|data files Hd _ IH];
        [reflexivity|]. simpl. rewrite Hp; [exact IH| |];
        destruct data as [| | | | |d]; try reflexivity;
        destruct (Hd d eq_refl) as [Hfd Htsnr]; simpl;
        rewrite ?Hfd, ?Htsnr; reflexivity. }
    assert (Ht : List.filter (fun a => lt (T1w.snr a) f8)
                   (map t1w_row_of_file t1w_files) = []).
    { clear Ht1w. induction Hnt as [|data files Hd _ IH]; [reflexivity|].
      simpl. rewrite IH.
      destruct data as [| | | | |d]; try reflexivity.
      simpl. rewrite (Hd d eq_refl). reflexivity. }
    unfold table_of, QC.high_motion, QC.mod_motion, QC.low_tsnr, QC.low_snr.
    destruct bold_files as [|b bs], t1w_files as [|t ts];
      rewrite ?Hb, ?Ht; try reflexivity;
      intros r Hfd Htsnr; rewrite ?Hfd, ?Htsnr, ?gt_nan, ?lt_nan;
      reflexivity. }
  destruct (table_of bold_row_of_file bold_files) as [b|] eqn:Hb,
    (table_of t1w_row_of_file t1w_files) as [t|] eqn:Ht;
    eexists; (split; [reflexivity|]); cbn [Report.suggested_exclusions];
    try reflexivity;
    rewrite (Hrows _ _ eq_refl eq_refl); reflexivity.
Qed.

End RunFacts.

Lemma pandas_numeric_keeps_floats : @frame_keeps_floats pandas_numeric.
Proof.
  split; intros rows; simpl; rewrite map_map;
    (rewrite <- (map_id rows) at 2); apply map_ext; intros []; reflexivity.
Qed.

Ltac numeric_file d meta :=
  exists d, meta; split; [reflexivity|]; split; [reflexivity|];
  let k := fresh "k" in let v := fresh "v" in
  let Hk := fresh "Hk" in let Hv := fresh "Hv" in
  intros k v Hk Hv; unfold bold_metric_names, t1w_metric_names in Hk;
  repeat (apply elem_of_cons in Hk as [->|Hk];
          [vm_compute in Hv; first [discriminate Hv|injection Hv as <-; eauto]|]);
  apply elem_of_nil in Hk; destruct Hk.

Lemma numeric_bold_file_full :
  numeric_metric_file bold_metric_names (JObj bold_file_full).
Proof.
  numeric_file bold_file_full
    ({[ "subject_id" := JStr "01"; "session_id" := JStr "01";
        "task_id" := JStr "rest" ]} : gmap string json).
Qed.

Lemma numeric_t1w_file_full :
  numeric_metric_file t1w_metric_names (JObj t1w_file_full).
Proof.
  numeric_file t1w_file_full
    ({[ "subject_id" := JStr "01" ]} : gmap string json).
Qed.

Lemma numeric_file_meta_subject_only :
  numeric_metric_file bold_metric_names (JObj file_meta_subject_only) ∧
  numeric_metric_file t1w_metric_names (JObj file_meta_subject_only).
Proof.
  split; numeric_file file_meta_subject_only meta_subject_only.
Qed.

Lemma run_reports_tables_of_files_witness :
  @QCRun.run pandas_numeric [JObj bold_file_full] [JObj t1w_file_full] =
  Ok (Report.Make
        (table_of bold_row_of_file [JObj bold_file_full])
        (table_of t1w_row_of_file [JObj t1w_file_full])
        (QC.suggested_exclusions_csv
           (QC.create_exclusion_list
              (table_of bold_row_of_file [JObj bold_file_full])
              (table_of t1w_row_of_file [JObj t1w_file_full])))).
Proof.
  apply (@run_reports_tables_of_files pandas_numeric
           pandas_numeric_keeps_floats).
  - constructor; [exact numeric_bold_file_full|constructor].
  - constructor; [exact numeric_t1w_file_full|constructor].
Defined.

Lemma run_without_metrics_suggests_no_exclusion_witness :
  ∃ report,
    @QCRun.run pandas_numeric [JObj file_meta_subject_only]
      [JObj file_meta_subject_only] = Ok report ∧
    Report.suggested_exclusions report = None.
Proof.
  apply (@run_without_metrics_suggests_no_exclusion pandas_numeric
           pandas_numeric_keeps_floats).
  - constructor; [exact (proj1 numeric_file_meta_subject_only)|constructor].
  - constructor; [exact (proj2 numeric_file_meta_subject_only)|constructor].
  - constructor; [|constructor]. intros d [= <-]. split; reflexivity.
  - constructor; [|constructor]. intros d [= <-]. reflexivity.
Defined.

(** The run on the file of a subject who moved: the exclusion list has
    the high motion entry and the low tSNR entry of that subject. *)
Example run_on_moving_subject :
  @QCRun.run pandas_numeric [JObj bold_file_full] [JObj t1w_file_full] =
  Ok (Report.Make
        (Some [Bold.Metrics (JStr "01") (JStr "01") (JStr "rest")
                 Scenario.f0_95 nan nan nan Scenario.f35 nan nan nan nan nan])
        (Some [T1w.Metrics (JStr "01") (JStr "unknown") Scenario.f12 nan nan
                 nan nan nan nan nan])
        (Some [Entry.Make (JStr "01") (JStr "01") "High motion (FD=0.950mm)"
                 "high";
               Entry.Make (JStr "01") (JStr "01") "Low tSNR (35.00)"
                 "moderate"])).
Proof. vm_compute. reflexivity. Qed.

(** ** Further properties of the signal conditioner and of the labels
    file *)

(** [apply_confound_regression] gives a cleaned image exactly when the
    mask is obtained (read from the mask file when the subject has one,
    computed from the scan otherwise), the repetition time is read from
    the header of the scan, and [clean_img] succeeds on the scan with the
    confounds given, standardize and detrend on, low_pass 0.1, high_pass
    0.01, that repetition time and that mask. *)
Theorem cleaning_parameters `{Nilearn} (self : Analysis.t) (bold_img : image)
    (confounds : option ndarray) (cleaned_img : image) :
  Analysis.apply_confound_regression self bold_img confounds = Ok cleaned_img ↔
  ∃ mask_img t_r,
    match Analysis.mask_file self with
    | Some mask_file => nib_load mask_file
    | None => compute_epi_mask bold_img
    end = Ok mask_img ∧
    get_zooms_3 bold_img = Ok t_r ∧
    clean_img bold_img confounds true true f0_1 f0_01 t_r mask_img =
      Ok cleaned_img.
Proof.
  unfold Analysis.apply_confound_regression.
  destruct (match Analysis.mask_file self with
            | Some mask_file => nib_load mask_file
            | None => compute_epi_mask bold_img
            end) as [mask_img|e]; run_outcome.
  - destruct (get_zooms_3 bold_img) as [t_r|e]; simpl.
    + split; [intros Hc; exists mask_img, t_r; auto|].
      intros (m & t & [= <-] & [= <-] & Hc). exact Hc.
    + split; [discriminate|]. intros (m & t & _ & Ht & _). discriminate Ht.
  - split; [discriminate|]. intros (m & t & Hm & _). discriminate Hm.
Qed.

Lemma append_assoc (a b c : string) : (a +:+ b) +:+ c = a +:+ (b +:+ c).
Proof.
  induction a as [|ch a IH]; [reflexivity|].
  change (String ch ((a +:+ b) +:+ c) = String ch (a +:+ (b +:+ c))).
  f_equal. exact IH.
Qed.

Lemma label_lines_app (i : nat) (pre post : list string) :
  Analysis.label_lines i (pre ++ post) =
  Analysis.label_lines i pre +:+ Analysis.label_lines (i + length pre) post.
Proof.
  revert i. induction pre as [|label pre IH]; intros i.
  - simpl. now rewrite Nat.add_0_r.
  - change (Analysis.label_lines i ((label :: pre) ++ post))
      with (Analysis.str_nat i +:+ String (ascii_of_nat 9) label
              +:+ String (ascii_of_nat 10)
                    (Analysis.label_lines (S i) (pre ++ post))).
    change (Analysis.label_lines i (label :: pre))
      with (Analysis.str_nat i +:+ String (ascii_of_nat 9) label
              +:+ String (ascii_of_nat 10) (Analysis.label_lines (S i) pre)).
    rewrite IH, !append_assoc.
    replace (i + length (label :: pre))%nat with (S i + length pre)%nat
      by (simpl; lia).
    reflexivity.
Qed.

(** The labels file has the labels in their order, each on a line of its
    own that starts with its position in the list, counted from 0,
    followed by a tab. *)
Theorem labels_file_numbers_lines (pre post : list string) (label : string) :
  Analysis.label_lines 0 (pre ++ label :: post) =
  Analysis.label_lines 0 pre
    +:+ (Analysis.str_nat (length pre) +:+ String (ascii_of_nat 9) label
           +:+ String (ascii_of_nat 10) "")
    +:+ Analysis.label_lines (S (length pre)) post.
Proof.
  rewrite label_lines_app. f_equal.
  change (Analysis.label_lines (0 + length pre) (label :: post))
    with (Analysis.str_nat (length pre) +:+ String (ascii_of_nat 9) label
            +:+ String (ascii_of_nat 10)
                  (Analysis.label_lines (S (length pre)) post)).
  rewrite !append_assoc. reflexivity.
Qed.
